(** * Domain enrichment pipeline: a shallow embedding and its properties

    The development follows the Python sources module by module:
    - [PyStr]      the string operations of the interpreter the code relies on
                   ([str.strip], [str.split], [str.lower], [in], [endswith]);
    - [Py]         dynamically typed values (decoded JSON), exceptions and the
                   state-and-exception monad in which the services run;
    - [Models]     the records of [models.py];
    - [Env]        tables, the answers of the outside world (network,
                   libraries, clock) and the store of the process;
    - [SearXNG]    [searxng_client.py];
    - [Enrichment] [domain_enrichment.py];
    - [CSV]        [csv_processor.py];
    - [Jobs]       [job_manager.py];
    - [Samples]    concrete worlds and tables.
    The properties follow, one module for each subject.

    Strings are sequences of code points below 256.  Exceptions are the
    instances of Python's [Exception] class, which is what the handlers of
    the sources catch.  What the sources leave to a library or to the
    network is a field of [Env.World], so that a property holds whatever
    the library or the network answers. *)

From Stdlib Require Import ZArith Ascii String List Bool Lia Floats.
From Stdlib Require Import Numbers.DecimalString.
From stdpp Require Import base option list strings gmap fin_maps.

Set Warnings "-register-all".

Local Open Scope string_scope.
Local Open Scope list_scope.

(* ===================================================================== *)
(** ** Python string operations *)
(* ===================================================================== *)

Module PyStr.

(** [c.isspace()] for a code point below 256. *)
Definition is_space (c : ascii) : bool :=
  let n := nat_of_ascii c in
  ((9 <=? n)%nat && (n <=? 13)%nat) || ((28 <=? n)%nat && (n <=? 32)%nat)
  || (n =? 133)%nat || (n =? 160)%nat.

Fixpoint lstrip (s : string) : string :=
  match s with
  | EmptyString => EmptyString
  | String c s' => if is_space c then lstrip s' else s
  end.

Fixpoint rev_onto (s acc : string) : string :=
  match s with
  | EmptyString => acc
  | String c s' => rev_onto s' (String c acc)
  end.

Definition srev (s : string) : string := rev_onto s EmptyString.

Definition rstrip (s : string) : string := srev (lstrip (srev s)).

(** [s.strip()] *)
Definition strip (s : string) : string := rstrip (lstrip s).

(** [s.split(sep)] for a one-character separator: never the empty list. *)
Fixpoint split (sep : ascii) (s : string) : list string :=
  match s with
  | EmptyString => [EmptyString]
  | String c s' =>
      if Ascii.eqb c sep then EmptyString :: split sep s'
      else match split sep s' with
           | p :: ps => String c p :: ps
           | [] => [String c EmptyString]
           end
  end.

(** [sep.join(parts)] *)
Fixpoint join (sep : string) (parts : list string) : string :=
  match parts with
  | [] => EmptyString
  | [p] => p
  | p :: ps => p +:+ sep +:+ join sep ps
  end.


(** [s.startswith(p)] *)
Fixpoint startswith (p s : string) : bool :=
  match p, s with
  | EmptyString, _ => true
  | String a p', String b s' => Ascii.eqb a b && startswith p' s'
  | String _ _, EmptyString => false
  end.

(** [p in s] *)
Fixpoint contains (p s : string) : bool :=
  startswith p s ||
  match s with
  | EmptyString => false
  | String _ s' => contains p s'
  end.

(** [s.endswith(p)] *)
Definition endswith (p s : string) : bool := startswith (srev p) (srev s).

(** The capital letters below 256: A to Z, and 192 to 222 but for the
    multiplication sign, 215. *)
Definition lower_char (c : ascii) : ascii :=
  let n := nat_of_ascii c in
  if ((65 <=? n)%nat && (n <=? 90)%nat)
     || ((192 <=? n)%nat && (n <=? 222)%nat && negb (n =? 215)%nat)
  then ascii_of_nat (n + 32) else c.

(** [s.lower()] *)
Fixpoint lower (s : string) : string :=
  match s with
  | EmptyString => EmptyString
  | String c s' => String (lower_char c) (lower s')
  end.

(** [s[:n]] *)
Fixpoint take (n : nat) (s : string) : string :=
  match n, s with
  | S n', String c s' => String c (take n' s')
  | _, _ => EmptyString
  end.

(** [s[:-n]] for [n <= len(s)], the only way the sources use it. *)
Definition drop_last (n : nat) (s : string) : string :=
  take (String.length s - n) s.

(** [str(n)] for an integer. *)
Definition of_Z (n : Z) : string := NilEmpty.string_of_int (Z.to_int n).

(** [bool(s)]: a string is truthy when it is not empty. *)
Definition truthy (s : string) : bool :=
  match s with EmptyString => false | _ => true end.

(** The double-quote character the query templates put around a name. *)
Definition dquote : string := String (ascii_of_nat 34) EmptyString.

End PyStr.

(* ===================================================================== *)
(** ** Python values, exceptions and the monad of the services *)
(* ===================================================================== *)

Module Py.

(** A dynamically typed value: what [json.loads] and [response.json()]
    return.  A [dict] keeps its items in insertion order. *)
Inductive pyval :=
| PNone
| PBool (b : bool)
| PInt (z : Z)
| PFloat (f : float)
| PStr (s : string)
| PList (l : list pyval)
| PDict (d : list (string * pyval)).

(** Exceptions, by class, each with the text [str(e)] gives. *)
Inductive exn :=
| KeyError (msg : string)
| IndexError (msg : string)
| TypeError (msg : string)
| AttributeError (msg : string)
| ValueError (msg : string)
| JSONDecodeError (msg : string)
| ValidationError (msg : string)
| TransportError (msg : string)   (* httpx: connection failures and timeouts *)
| EmptyDataError (msg : string)   (* pandas.errors *)
| ParserError (msg : string)      (* pandas.errors *)
| PlainException (msg : string).  (* [raise Exception(msg)] *)

Definition exn_str (e : exn) : string :=
  match e with
  | KeyError m | IndexError m | TypeError m | AttributeError m | ValueError m
  | JSONDecodeError m | ValidationError m | TransportError m
  | EmptyDataError m | ParserError m
  | PlainException m => m
  end.

Definition is_JSONDecodeError (e : exn) : bool :=
  match e with JSONDecodeError _ => true | _ => false end.

Inductive outcome (A : Type) :=
| Ret (a : A)
| Raise (e : exn).
Arguments Ret {A} a.
Arguments Raise {A} e.

(** A computation over a store [S] that returns or raises; the store keeps
    the changes made before an exception was raised. *)
Definition M (S A : Type) : Type := S -> outcome A * S.

Definition ret {S A} (a : A) : M S A := fun s => (Ret a, s).

Definition raise {S A} (e : exn) : M S A := fun s => (Raise e, s).

Definition bind {S A B} (m : M S A) (k : A -> M S B) : M S B :=
  fun s =>
    match m s with
    | (Ret a, s') => k a s'
    | (Raise e, s') => (Raise e, s')
    end.

(** [try: m  except Exception as e: h e] *)
Definition try_except {S A} (m : M S A) (h : exn -> M S A) : M S A :=
  fun s =>
    match m s with
    | (Ret a, s') => (Ret a, s')
    | (Raise e, s') => h e s'
    end.

Definition get {S} : M S S := fun s => (Ret s, s).

Definition modify {S} (f : S -> S) : M S unit := fun s => (Ret tt, f s).

Definition lift {S A} (o : outcome A) : M S A := fun s => (o, s).

Declare Scope py_scope.
Delimit Scope py_scope with py.

Notation "'let*' x ':=' m 'in' k" := (bind m (fun x => k))
  (at level 10, x name, m at level 100, k at level 200) : py_scope.
Notation "m '>>' k" := (bind m (fun _ => k))
  (at level 199, k at level 200, right associativity) : py_scope.

(** [bool(v)] *)
Definition truthy (v : pyval) : bool :=
  match v with
  | PNone => false
  | PBool b => b
  | PInt z => negb (Z.eqb z 0)
  | PFloat f => negb (PrimFloat.eqb f 0%float)
  | PStr s => PyStr.truthy s
  | PList l => match l with [] => false | _ => true end
  | PDict d => match d with [] => false | _ => true end
  end.

Definition type_name (v : pyval) : string :=
  match v with
  | PNone => "NoneType"
  | PBool _ => "bool"
  | PInt _ => "int"
  | PFloat _ => "float"
  | PStr _ => "str"
  | PList _ => "list"
  | PDict _ => "dict"
  end.

Fixpoint assoc (k : string) (d : list (string * pyval)) : option pyval :=
  match d with
  | [] => None
  | (k', v) :: d' => if String.eqb k' k then Some v else assoc k d'
  end.

(** [v.get(key, default)]: only a [dict] has the method. *)
Definition get_method (v : pyval) (key : string) (default : pyval) : outcome pyval :=
  match v with
  | PDict d => Ret (match assoc key d with Some x => x | None => default end)
  | _ => Raise (AttributeError
                  ("'" +:+ type_name v +:+ "' object has no attribute 'get'"))
  end.

(** [v[key]] for a string key. *)
Definition subscript_str (v : pyval) (key : string) : outcome pyval :=
  match v with
  | PDict d => match assoc key d with
               | Some x => Ret x
               | None => Raise (KeyError ("'" +:+ key +:+ "'"))
               end
  | PList _ => Raise (TypeError "list indices must be integers or slices, not str")
  | PStr _ => Raise (TypeError "string indices must be integers, not 'str'")
  | _ => Raise (TypeError ("'" +:+ type_name v +:+ "' object is not subscriptable"))
  end.

(** [v[0]] *)
Definition subscript_0 (v : pyval) : outcome pyval :=
  match v with
  | PList (x :: _) => Ret x
  | PList [] => Raise (IndexError "list index out of range")
  | PStr (String c _) => Ret (PStr (String c EmptyString))
  | PStr EmptyString => Raise (IndexError "string index out of range")
  | PDict _ => Raise (KeyError "0")
  | _ => Raise (TypeError ("'" +:+ type_name v +:+ "' object is not subscriptable"))
  end.

(** [v[:n]]: lists and strings are sliced, nothing else is. *)
Definition slice_to (n : nat) (v : pyval) : outcome pyval :=
  match v with
  | PList l => Ret (PList (firstn n l))
  | PStr s => Ret (PStr (PyStr.take n s))
  | PDict _ => Raise (TypeError "unhashable type: 'slice'")
  | _ => Raise (TypeError ("'" +:+ type_name v +:+ "' object is not subscriptable"))
  end.

Fixpoint chars (s : string) : list pyval :=
  match s with
  | EmptyString => []
  | String c s' => PStr (String c EmptyString) :: chars s'
  end.

(** The items [list.extend(v)] appends: the elements of a list, the
    characters of a string. *)
Definition iterate (v : pyval) : outcome (list pyval) :=
  match v with
  | PList l => Ret l
  | PStr s => Ret (chars s)
  | PDict d => Ret (map (fun kv => PStr (fst kv)) d)
  | _ => Raise (TypeError ("'" +:+ type_name v +:+ "' object is not iterable"))
  end.

Definition and_then {A B} (o : outcome A) (k : A -> outcome B) : outcome B :=
  match o with
  | Ret a => k a
  | Raise e => Raise e
  end.

(** A loop that changes no store: the first exception ends it. *)
Fixpoint traverse {A B} (f : A -> outcome B) (l : list A) : outcome (list B) :=
  match l with
  | [] => Ret []
  | x :: l' =>
      and_then (f x) (fun y => and_then (traverse f l') (fun ys => Ret (y :: ys)))
  end.

(** A computation keeps [R] when every run relates the store it starts
    from to the store it leaves, whether it returns or raises. *)
Definition keeps {S A} (R : S -> S -> Prop) (m : M S A) : Prop :=
  forall s, R s (snd (m s)).

(** [for x in l: ... f x ...], collecting what each turn yields. *)
Fixpoint for_each {S A B} (f : A -> M S B) (l : list A) : M S (list B) :=
  match l with
  | [] => ret []
  | x :: l' =>
      bind (f x) (fun y => bind (for_each f l') (fun ys => ret (y :: ys)))
  end.

(** [try: m  except C as e: h e] for the exception class [C] alone. *)
Definition try_except_class {S A} (C : exn -> bool) (m : M S A)
    (h : exn -> M S A) : M S A :=
  fun s =>
    match m s with
    | (Ret a, s') => (Ret a, s')
    | (Raise e, s') => if C e then h e s' else (Raise e, s')
    end.

End Py.


(* ===================================================================== *)
(** ** models.py *)
(* ===================================================================== *)

Module Models.
Import Py.

Record CompanyAddress := {
  street : option string;
  city : string;
  state : string;
  zip : option string;
  country : option string
}.

(** [CompanyAddress(city=c, state=s)]: the other fields take their defaults. *)
Definition CompanyAddress_city_state (c s : string) : CompanyAddress :=
  {| street := None; city := c; state := s; zip := None; country := Some "US" |}.

(** [CompanyAddress(city=c, state=s, country=k)] *)
Definition CompanyAddress_city_state_country (c s k : string) : CompanyAddress :=
  {| street := None; city := c; state := s; zip := None; country := Some k |}.

Record CompanyRequest := {
  company_name : string;
  address : CompanyAddress
}.

Inductive JobStatus := PENDING | PROCESSING | COMPLETED | FAILED.

Definition JobStatus_eqb (a b : JobStatus) : bool :=
  match a, b with
  | PENDING, PENDING | PROCESSING, PROCESSING
  | COMPLETED, COMPLETED | FAILED, FAILED => true
  | _, _ => false
  end.

(** The value of the enumeration member, [JobStatus] being a [str] enum. *)
Definition JobStatus_value (s : JobStatus) : string :=
  match s with
  | PENDING => "pending"
  | PROCESSING => "processing"
  | COMPLETED => "completed"
  | FAILED => "failed"
  end.

Module SimpleDomainResponse.
Record t := {
  primary_domain : option string;
  confidence_score : float;
  verification_status : string;
  processing_time_ms : Z
}.
End SimpleDomainResponse.

Record Metadata := {
  company_name_normalized : string;
  ai_model_used : string;
  search_results_count : Z;
  domain_status : string;
  reasoning : pyval
}.

Module DomainResponse.
Record t := {
  primary_domain : option string;
  confidence_score : float;
  search_queries_used : list string;
  domains_considered : list string;
  verification_status : string;
  processing_time_ms : Z;
  metadata : Metadata
}.
End DomainResponse.

Module CSVUploadResponse.
Record t := {
  job_id : string;
  status : JobStatus;
  message : string;
  total_rows : option Z
}.
End CSVUploadResponse.

Module JobStatusResponse.
Record t := {
  job_id : string;
  status : JobStatus;
  progress : Z;
  total : Z;
  completed_at : option string;
  download_url : option string;
  errors : list string
}.
End JobStatusResponse.

End Models.


(* ===================================================================== *)
(** ** Tables, the outside world and the store of the application *)
(* ===================================================================== *)

Module Env.
Import Py Models.

(** A cell of a [pandas.DataFrame]. *)
Inductive cell :=
| CNaN
| CNone
| CStr (s : string)
| CInt (z : Z)
| CFloat (f : float)
| CBool (b : bool).

(** [pd.isna(c)] *)
Definition isna (c : cell) : bool :=
  match c with
  | CNaN | CNone => true
  | CFloat f => PrimFloat.is_nan f
  | _ => false
  end.

Inductive dtype := DObject | DFloat64 | DInt64 | DBool.

Definition is_object (d : dtype) : bool :=
  match d with DObject => true | _ => false end.

Record column := {
  col_name : string;
  col_dtype : dtype;
  col_cells : list cell
}.

(** A table: the length of its index and its columns, in order. *)
Record DataFrame := {
  nrows : nat;
  columns : list column
}.

(** [df.columns] *)
Definition column_names (df : DataFrame) : list string :=
  map col_name (columns df).

Fixpoint find_column (name : string) (cols : list column) : option column :=
  match cols with
  | [] => None
  | c :: cols' => if String.eqb (col_name c) name then Some c
                  else find_column name cols'
  end.

(** What the adjudicator is sent: the values the prompt template is filled
    with. *)
Record Prompt := {
  prompt_company : string;
  prompt_city : string;
  prompt_state : string;
  prompt_zip : option string;
  prompt_results : list (pyval * pyval * pyval)   (* title, url, content *)
}.

(** The requests that leave the process. *)
Inductive event :=
| EvGet (url query : string)
| EvPost (prompt : Prompt)
| EvHead (url : string).

Definition is_post (e : event) : bool :=
  match e with EvPost _ => true | _ => false end.

(** A response: its status code and what [response.json()] gives. *)
Record Response := {
  status_code : Z;
  json : outcome pyval
}.

(** Everything the code does not decide: the answers of the network (they
    may change from one request to the next, so they depend on the number of
    requests made so far), the libraries and the clock. *)
Record World := {
  http_get : nat -> string -> string -> outcome Response;
  http_post : nat -> Prompt -> outcome Response;
  http_head : nat -> string -> outcome Response;
  (** [json.loads(s)] for a string *)
  json_loads : string -> outcome pyval;
  (** [str(v)] for a value that is not a string *)
  py_str : pyval -> string;
  (** [str(c)] for a cell that holds a float *)
  float_str : float -> string;
  (** the order in which [list(set(xs))] lists the elements *)
  set_order : list string -> list string;
  (** [int((time.time() - start_time) * 1000)] between two instants *)
  elapsed_ms : nat -> nat -> Z;
  (** pydantic's coercion of a value of another type than the field's *)
  coerce_str : pyval -> outcome (option string);
  coerce_float : pyval -> outcome float;
  coerce_str_list : pyval -> outcome (list string);
  (** [pd.read_csv] and [DataFrame.to_csv(index=False)] *)
  read_csv : string -> outcome DataFrame;
  to_csv : DataFrame -> string;
  (** [df[name] = values] when [values] is not as long as the index *)
  assign_mismatch : DataFrame -> string -> list cell -> outcome DataFrame;
  (** [datetime.now()] and its [isoformat()] *)
  now : nat -> Z;
  isoformat : Z -> string
}.

(** The dictionary a job is kept as.  [results] is a reference to a list
    object of the heap, as two names can denote the same list. *)
Module Job.
Record t := {
  id : string;
  status : JobStatus;
  progress : Z;
  total : Z;
  created_at : Z;
  completed_at : option Z;
  dataframe : DataFrame;
  detected_columns : option string * option string;  (* company_name, location *)
  results : nat;
  errors : list string
}.
End Job.

(** The mutable state of the process. *)
Record App := {
  base_url : string;                                  (* SearXNGClient.base_url *)
  trace : list event;                                 (* requests made, latest first *)
  jobs : gmap string Job.t;                           (* JobManager.jobs *)
  results_cache : gmap string string;                 (* JobManager.results_cache *)
  heap : list (list SimpleDomainResponse.t)           (* the result lists allocated *)
}.

Definition set_base_url (u : string) (a : App) : App :=
  {| base_url := u; trace := trace a; jobs := jobs a;
     results_cache := results_cache a; heap := heap a |}.

Definition push_event (e : event) (a : App) : App :=
  {| base_url := base_url a; trace := e :: trace a; jobs := jobs a;
     results_cache := results_cache a; heap := heap a |}.

Definition set_jobs (j : gmap string Job.t) (a : App) : App :=
  {| base_url := base_url a; trace := trace a; jobs := j;
     results_cache := results_cache a; heap := heap a |}.

Definition set_results_cache (c : gmap string string) (a : App) : App :=
  {| base_url := base_url a; trace := trace a; jobs := jobs a;
     results_cache := c; heap := heap a |}.

Definition set_heap (h : list (list SimpleDomainResponse.t)) (a : App) : App :=
  {| base_url := base_url a; trace := trace a; jobs := jobs a;
     results_cache := results_cache a; heap := h |}.

(** The requests to the adjudicator are the same in both stores. *)
Definition same_posts (a b : App) : Prop :=
  List.filter is_post (trace b) = List.filter is_post (trace a).

(** Both stores hold the same jobs, cache and result lists. *)
Definition same_jobs (a b : App) : Prop :=
  jobs b = jobs a /\ results_cache b = results_cache a /\ heap b = heap a.

(** One request: it is recorded, and the world answers or fails. *)
Definition request {A} (e : event) (answer : nat -> outcome A) : M App A :=
  fun a => (answer (length (trace a)), push_event e a).

End Env.

(* ===================================================================== *)
(** ** searxng_client.py *)
(* ===================================================================== *)

Module SearXNG.
Import Py Models Env.
Local Open Scope py_scope.

Definition fallback_instances : list string :=
  ["https://searx.org"; "https://searx.space"].

Section Client.
Context (w : World).

Definition _perform_search (query : string) (limit : nat) : M App pyval :=
  let* self := get in
  let url := base_url self +:+ "/search" in
  let* response := request (EvGet url query) (fun t => http_get w t url query) in
  if Z.eqb (status_code response) 200 then
    let* data := lift (json response) in
    let* results := lift (get_method data "results" (PList [])) in
    lift (slice_to limit results)
  else
    raise (PlainException
             ("SearXNG API returned status " +:+ PyStr.of_Z (status_code response))).

(** The loop over the fallback instances of [search]. *)
Fixpoint try_fallbacks (query : string) (limit : nat) (fallbacks : list string)
    : M App pyval :=
  match fallbacks with
  | [] => ret (PList [])
  | fallback_url :: rest =>
      try_except
        (let* self := get in
         let original_url := base_url self in
         modify (set_base_url fallback_url) >>
         let* result := _perform_search query limit in
         modify (set_base_url original_url) >>
         ret result)
        (fun _ => try_fallbacks query limit rest)
  end.

Definition search (query : string) (limit : nat) : M App pyval :=
  try_except (_perform_search query limit)
    (fun _ => try_fallbacks query limit fallback_instances).

End Client.
End SearXNG.

(* ===================================================================== *)
(** ** domain_enrichment.py *)
(* ===================================================================== *)

Module Enrichment.
Import Py Models Env.
Local Open Scope py_scope.

Definition suffixes : list string :=
  ["Inc"; "Corp"; "Corporation"; "LLC"; "Ltd"; "Limited"; "Co"; "Company"].

Definition normalize_company_name (name : string) : string :=
  let normalized :=
    fold_left
      (fun normalized suffix =>
         if PyStr.endswith (" " +:+ suffix) normalized
         then PyStr.drop_last (String.length suffix + 1) normalized
         else normalized)
      suffixes (PyStr.strip name) in
  PyStr.strip normalized.

(** The dictionary returned when no domain is named. *)
Definition no_domain (reasoning : string) : pyval :=
  PDict [("primary_domain", PNone);
         ("confidence_score", PFloat 0%float);
         ("reasoning", PStr reasoning);
         ("alternative_domains", PList [])].

(** One entry of [formatted_results]. *)
Definition format_result (result : pyval) : outcome (pyval * pyval * pyval) :=
  and_then (get_method result "title" (PStr "")) (fun title =>
  and_then (get_method result "url" (PStr "")) (fun url =>
  and_then (get_method result "content" (PStr "")) (fun content =>
  and_then (slice_to 400 content) (fun content =>
  Ret (title, url, content))))).

(** [ai_response['choices'][0]['message']['content']] of a response. *)
Definition message_content (response : Response) : outcome pyval :=
  and_then (json response) (fun ai_response =>
  and_then (subscript_str ai_response "choices") (fun choices =>
  and_then (subscript_0 choices) (fun choice =>
  and_then (subscript_str choice "message") (fun message =>
  subscript_str message "content")))).

(** The values the prompt template is filled with. *)
Definition build_prompt (company_name : string) (address : CompanyAddress)
    (formatted_results : list (pyval * pyval * pyval)) : Prompt :=
  {| prompt_company := company_name;
     prompt_city := city address;
     prompt_state := state address;
     prompt_zip := zip address;
     prompt_results := formatted_results |}.

Fixpoint all_str (l : list pyval) : option (list string) :=
  match l with
  | [] => Some []
  | PStr s :: l' =>
      match all_str l' with Some ss => Some (s :: ss) | None => None end
  | _ => None
  end.

Section Service.
Context (w : World) (ai_model : string).

Definition generate_search_queries (company_name : string)
    (address : CompanyAddress) : list string :=
  let normalized_name := normalize_company_name company_name in
  let city := city address in
  let state := state address in
  let q := PyStr.dquote in
  let queries :=
    [ q +:+ normalized_name +:+ q +:+ " official website";
      q +:+ normalized_name +:+ q +:+ " " +:+ city +:+ " " +:+ state +:+ " website";
      q +:+ normalized_name +:+ q +:+ " headquarters website";
      q +:+ normalized_name +:+ q +:+ " corporate site";
      normalized_name +:+ " " +:+ city +:+ " company website";
      q +:+ company_name +:+ q +:+ " official domain" ] in
  set_order w (List.filter (fun q => PyStr.truthy (PyStr.strip q)) queries).

(** [json.loads(content)] for a value of any type. *)
Definition loads (content : pyval) : outcome pyval :=
  match content with
  | PStr s => json_loads w s
  | _ => Raise (TypeError
                  ("the JSON object must be str, bytes or bytearray, not "
                   +:+ type_name content))
  end.

Definition analyze_results_with_ai (company_name : string)
    (address : CompanyAddress) (search_results : list pyval) : M App pyval :=
  match search_results with
  | [] => ret (no_domain "No search results available")
  | _ :: _ =>
      let* formatted_results :=
        lift (traverse format_result (firstn 25 search_results)) in
      let prompt := build_prompt company_name address formatted_results in
      try_except
        (let* response := request (EvPost prompt) (fun t => http_post w t prompt) in
         if Z.eqb (status_code response) 200 then
           let* content := lift (message_content response) in
           try_except_class is_JSONDecodeError
             (lift (loads content))
             (fun _ => ret (no_domain "Failed to parse AI response"))
         else
           ret (no_domain ("AI API error: " +:+ PyStr.of_Z (status_code response))))
        (fun e => ret (no_domain ("Error: " +:+ exn_str e)))
  end.

(** [f"{v}"] *)
Definition format_value (v : pyval) : string :=
  match v with
  | PStr s => s
  | _ => py_str w v
  end.

Definition verify_domain (domain : pyval) : M App string :=
  try_except
    (let url := "https://" +:+ format_value domain in
     let* response := request (EvHead url) (fun t => http_head w t url) in
     if Z.ltb (status_code response) 400 then ret "verified"
     else ret "inaccessible")
    (fun _ =>
       try_except
         (let url := "http://" +:+ format_value domain in
          let* response := request (EvHead url) (fun t => http_head w t url) in
          if Z.ltb (status_code response) 400 then ret "http_only"
          else ret "inaccessible")
         (fun _ => ret "unreachable")).

(** The loop of step 2: every query is searched, the hits are appended. *)
Fixpoint collect_results (queries : list string) (all_search_results : list pyval)
    : M App (list pyval) :=
  match queries with
  | [] => ret all_search_results
  | query :: rest =>
      let* results := SearXNG.search w query 10 in
      let* items := lift (iterate results) in
      collect_results rest (all_search_results ++ items)
  end.

(** The validation [DomainResponse(...)] runs on its arguments: a value of
    the field's type is taken as it is. *)
Definition as_optional_str (v : pyval) : outcome (option string) :=
  match v with
  | PNone => Ret None
  | PStr s => Ret (Some s)
  | _ => coerce_str w v
  end.

Definition as_float (v : pyval) : outcome float :=
  match v with
  | PFloat f => Ret f
  | _ => coerce_float w v
  end.

Definition as_str_list (v : pyval) : outcome (list string) :=
  match v with
  | PList l => match all_str l with
               | Some ss => Ret ss
               | None => coerce_str_list w v
               end
  | _ => coerce_str_list w v
  end.

Definition process_company_request (request : CompanyRequest)
    : M App DomainResponse.t :=
  let* at_start := get in
  let start_time := length (trace at_start) in
  let search_queries :=
    generate_search_queries (company_name request) (address request) in
  let* all_search_results := collect_results search_queries [] in
  let* domain_analysis :=
    analyze_results_with_ai (company_name request) (address request)
      all_search_results in
  let* found := lift (get_method domain_analysis "primary_domain" PNone) in
  let* verification_status :=
    (if truthy found then
       let* domain := lift (subscript_str domain_analysis "primary_domain") in
       verify_domain domain
     else ret "no_domain_found") in
  let* at_end := get in
  let processing_time := elapsed_ms w start_time (length (trace at_end)) in
  let* primary := lift (get_method domain_analysis "primary_domain" PNone) in
  let* confidence :=
    lift (get_method domain_analysis "confidence_score" (PFloat 0%float)) in
  let* alternatives :=
    lift (get_method domain_analysis "alternative_domains" (PList [])) in
  let* why := lift (get_method domain_analysis "reasoning" (PStr "")) in
  let* primary := lift (as_optional_str primary) in
  let* confidence := lift (as_float confidence) in
  let* alternatives := lift (as_str_list alternatives) in
  ret {| DomainResponse.primary_domain := primary;
         DomainResponse.confidence_score := confidence;
         DomainResponse.search_queries_used := search_queries;
         DomainResponse.domains_considered := alternatives;
         DomainResponse.verification_status := verification_status;
         DomainResponse.processing_time_ms := processing_time;
         DomainResponse.metadata :=
           {| company_name_normalized :=
                normalize_company_name (company_name request);
              ai_model_used := ai_model;
              search_results_count := Z.of_nat (length all_search_results);
              domain_status := verification_status;
              reasoning := why |} |}.

End Service.
End Enrichment.

(* ===================================================================== *)
(** ** csv_processor.py *)
(* ===================================================================== *)

Module CSV.
Import Py Models Env.
Local Open Scope py_scope.

Definition company_name_patterns : list string :=
  ["company"; "company_name"; "name"; "business_name";
   "organization"; "org"; "firm"; "entity"].

Definition location_patterns : list string :=
  ["location"; "address"; "city"; "state"; "country";
   "headquarters"; "hq"; "region"; "place"].

(** [[col for col in df.columns if pattern in col.lower()]] *)
Definition matches (pattern : string) (names : list string) : list string :=
  List.filter (fun col => PyStr.contains pattern (PyStr.lower col)) names.

(** The loop over the patterns: the first pattern with a match decides, and
    its first match is taken. *)
Fixpoint first_pattern_match (patterns : list string) (names : list string)
    : option string :=
  match patterns with
  | [] => None
  | pattern :: rest =>
      match matches pattern names with
      | col :: _ => Some col
      | [] => first_pattern_match rest names
      end
  end.

(** [bool(x)] for an optional string. *)
Definition opt_truthy (x : option string) : bool :=
  match x with
  | Some s => PyStr.truthy s
  | None => false
  end.

(** [df[col].isna().all()] *)
Definition all_na (c : column) : bool := forallb isna (col_cells c).

(** The first column of dtype [object] that holds a value.  A name denotes
    one column, as the names of a table that was read are unique. *)
Fixpoint first_text_column (cols : list column) : option string :=
  match cols with
  | [] => None
  | c :: rest =>
      if is_object (col_dtype c) && negb (all_na c) then Some (col_name c)
      else first_text_column rest
  end.

Definition city_cols (names : list string) : list string :=
  matches "city" names.

Definition state_cols (names : list string) : list string :=
  List.filter (fun col =>
            existsb (fun s => PyStr.contains s (PyStr.lower col))
              ["state"; "province"; "region"]) names.

Definition is_nil {A} (l : list A) : bool :=
  match l with [] => true | _ => false end.

(** Returns the pair of [detected['company_name']] and [detected['location']]. *)
Definition detect_columns (df : DataFrame) : option string * option string :=
  let names := column_names df in
  let company_name_col := first_pattern_match company_name_patterns names in
  let company_name_col :=
    if opt_truthy company_name_col then company_name_col
    else match first_text_column (columns df) with
         | Some col => Some col
         | None => company_name_col
         end in
  let location_col := first_pattern_match location_patterns names in
  let location_col :=
    if opt_truthy location_col then location_col
    else if negb (is_nil (city_cols names)) && negb (is_nil (state_cols names))
         then Some "combined_location"
         else location_col in
  (company_name_col, location_col).

(** [row[col]] for the row at position [i] of the table. *)
Definition row_get (df : DataFrame) (i : nat) (col : option string) : outcome cell :=
  match col with
  | None => Raise (KeyError "None")
  | Some name =>
      match find_column name (columns df) with
      | Some c => Ret (nth i (col_cells c) CNaN)
      | None => Raise (KeyError ("'" +:+ name +:+ "'"))
      end
  end.

Section Processor.
Context (w : World) (ai_model : string).

(** [str(c)] *)
Definition cell_str (c : cell) : string :=
  match c with
  | CStr s => s
  | CNaN => "nan"
  | CNone => "None"
  | CInt z => PyStr.of_Z z
  | CFloat f => float_str w f
  | CBool true => "True"
  | CBool false => "False"
  end.

Definition prepare_location_string (df : DataFrame) (i : nat)
    (location_col : string) : outcome (option string) :=
  if String.eqb location_col "combined_location" then
    let names := column_names df in
    match
      (match city_cols names with
       | c :: _ =>
           match row_get df i (Some c) with
           | Ret v => Ret (if isna v then [] else [PyStr.strip (cell_str v)])
           | Raise e => Raise e
           end
       | [] => Ret []
       end)
    with
    | Raise e => Raise e
    | Ret city_part =>
        match
          (match state_cols names with
           | c :: _ =>
               match row_get df i (Some c) with
               | Ret v => Ret (if isna v then [] else [PyStr.strip (cell_str v)])
               | Raise e => Raise e
               end
           | [] => Ret []
           end)
        with
        | Raise e => Raise e
        | Ret state_part =>
            let parts := city_part ++ state_part in
            Ret (if is_nil parts then None else Some (PyStr.join ", " parts))
        end
    end
  else if PyStr.truthy location_col then
    match row_get df i (Some location_col) with
    | Ret v => Ret (if isna v then None else Some (PyStr.strip (cell_str v)))
    | Raise e => Raise e
    end
  else Ret None.

Definition parse_location (location_str : option string) : CompanyAddress :=
  match location_str with
  | None => CompanyAddress_city_state "Unknown" "Unknown"
  | Some s =>
      if negb (PyStr.truthy s) then CompanyAddress_city_state "Unknown" "Unknown"
      else
        let parts := map PyStr.strip (PyStr.split "," s) in
        if (2 <=? length parts)%nat then
          CompanyAddress_city_state_country
            (nth 0 parts "") (nth 1 parts "")
            (if (2 <? length parts)%nat then nth 2 parts "" else "US")
        else if (length parts =? 1)%nat then
          CompanyAddress_city_state_country (nth 0 parts "") "Unknown" "US"
        else
          CompanyAddress_city_state_country "Unknown" "Unknown" "US"
  end.

Definition process_single_row (company_name : string) (location : option string)
    : M App SimpleDomainResponse.t :=
  try_except
    (let address := parse_location location in
     let request := {| company_name := company_name; address := address |} in
     let* full_response := Enrichment.process_company_request w ai_model request in
     ret {| SimpleDomainResponse.primary_domain :=
              DomainResponse.primary_domain full_response;
            SimpleDomainResponse.confidence_score :=
              DomainResponse.confidence_score full_response;
            SimpleDomainResponse.verification_status :=
              DomainResponse.verification_status full_response;
            SimpleDomainResponse.processing_time_ms :=
              DomainResponse.processing_time_ms full_response |})
    (fun _ =>
       ret {| SimpleDomainResponse.primary_domain := None;
              SimpleDomainResponse.confidence_score := 0%float;
              SimpleDomainResponse.verification_status := "error";
              SimpleDomainResponse.processing_time_ms := 0%Z |}).

(** [df.empty] *)
Definition df_empty (df : DataFrame) : bool :=
  (nrows df =? 0)%nat || is_nil (columns df).

(** [len(df[col].dropna())] *)
Definition count_not_na (df : DataFrame) (col : string) : outcome nat :=
  match find_column col (columns df) with
  | Some c => Ret (length (List.filter (fun v => negb (isna v)) (col_cells c)))
  | None => Raise (KeyError ("'" +:+ col +:+ "'"))
  end.

Definition rows_text (df : DataFrame) : string :=
  PyStr.of_Z (Z.of_nat (nrows df)).

Definition validate_csv (file_content : string)
    : bool * string * option DataFrame :=
  match read_csv w file_content with
  | Raise (EmptyDataError _) => (false, "CSV file is empty or invalid", None)
  | Raise (ParserError m) => (false, "Error parsing CSV file: " +:+ m, None)
  | Raise e => (false, "Error reading CSV file: " +:+ exn_str e, None)
  | Ret df =>
      if df_empty df then (false, "CSV file is empty", None)
      else if is_nil (columns df) then (false, "CSV file has no columns", None)
      else
        let detected_cols := detect_columns df in
        if negb (opt_truthy (fst detected_cols)) then
          (false,
           "Could not detect company name column. Please ensure your CSV has a column with company names.",
           None)
        else
          let company_col := default "" (fst detected_cols) in
          match count_not_na df company_col with
          | Raise e => (false, "Error reading CSV file: " +:+ exn_str e, None)
          | Ret n =>
              if (n =? 0)%nat then
                (false,
                 "No valid company names found in column '" +:+ company_col +:+ "'",
                 None)
              else
                (true, "Valid CSV with " +:+ rows_text df +:+ " rows detected",
                 Some df)
          end
  end.

(** The dtype pandas gives a column assigned from a list. *)
Definition infer_dtype (cells : list cell) : dtype :=
  if is_nil cells then DObject
  else if forallb (fun c => match c with CFloat _ | CNaN => true | _ => false end) cells
  then DFloat64
  else if forallb (fun c => match c with CInt _ => true | _ => false end) cells
  then DInt64
  else if forallb (fun c => match c with CBool _ => true | _ => false end) cells
  then DBool
  else DObject.

Fixpoint replace_column (c : column) (cols : list column) : list column :=
  match cols with
  | [] => []
  | c' :: rest =>
      if String.eqb (col_name c') (col_name c) then c :: rest
      else c' :: replace_column c rest
  end.

(** [df[name] = values]: an existing column is overwritten in place, a new
    one is appended. *)
Definition assign_column (name : string) (values : list cell) (df : DataFrame)
    : outcome DataFrame :=
  if (length values =? nrows df)%nat then
    let c := {| col_name := name; col_dtype := infer_dtype values;
                col_cells := values |} in
    Ret {| nrows := nrows df;
           columns :=
             match find_column name (columns df) with
             | Some _ => replace_column c (columns df)
             | None => columns df ++ [c]
             end |}
  else assign_mismatch w df name values.

(** The names of the columns [prepare_output_csv] assigns. *)
Definition result_columns : list string :=
  ["primary_domain"; "confidence_score"; "verification_status";
   "processing_time_ms"].

Definition domain_cell (d : option string) : cell :=
  match d with
  | Some s => CStr s
  | None => CNone
  end.

(** The table [prepare_output_csv] builds before it is written out. *)
Definition output_table (original_df : DataFrame)
    (results : list SimpleDomainResponse.t) : outcome DataFrame :=
  match assign_column "primary_domain"
          (map (fun r => domain_cell (SimpleDomainResponse.primary_domain r)) results)
          original_df with
  | Raise e => Raise e
  | Ret df1 =>
  match assign_column "confidence_score"
          (map (fun r => CFloat (SimpleDomainResponse.confidence_score r)) results)
          df1 with
  | Raise e => Raise e
  | Ret df2 =>
  match assign_column "verification_status"
          (map (fun r => CStr (SimpleDomainResponse.verification_status r)) results)
          df2 with
  | Raise e => Raise e
  | Ret df3 =>
      assign_column "processing_time_ms"
        (map (fun r => CInt (SimpleDomainResponse.processing_time_ms r)) results)
        df3
  end end end.

Definition prepare_output_csv (original_df : DataFrame)
    (results : list SimpleDomainResponse.t) : outcome string :=
  match output_table original_df results with
  | Ret output_df => Ret (to_csv w output_df)
  | Raise e => Raise e
  end.

End Processor.
End CSV.

(* ===================================================================== *)
(** ** job_manager.py *)
(* ===================================================================== *)

Module Jobs.
Import Py Models Env.
Local Open Scope py_scope.

Definition set_status (s : JobStatus) (j : Job.t) : Job.t :=
  {| Job.id := Job.id j; Job.status := s; Job.progress := Job.progress j;
     Job.total := Job.total j; Job.created_at := Job.created_at j;
     Job.completed_at := Job.completed_at j; Job.dataframe := Job.dataframe j;
     Job.detected_columns := Job.detected_columns j;
     Job.results := Job.results j; Job.errors := Job.errors j |}.

(** [job['progress'] += 1] *)
Definition incr_progress (j : Job.t) : Job.t :=
  {| Job.id := Job.id j; Job.status := Job.status j;
     Job.progress := (Job.progress j + 1)%Z;
     Job.total := Job.total j; Job.created_at := Job.created_at j;
     Job.completed_at := Job.completed_at j; Job.dataframe := Job.dataframe j;
     Job.detected_columns := Job.detected_columns j;
     Job.results := Job.results j; Job.errors := Job.errors j |}.

(** [job['results'] = results]: the entry now denotes the list at [l]. *)
Definition set_results (l : nat) (j : Job.t) : Job.t :=
  {| Job.id := Job.id j; Job.status := Job.status j; Job.progress := Job.progress j;
     Job.total := Job.total j; Job.created_at := Job.created_at j;
     Job.completed_at := Job.completed_at j; Job.dataframe := Job.dataframe j;
     Job.detected_columns := Job.detected_columns j;
     Job.results := l; Job.errors := Job.errors j |}.

(** [job['errors'].append(msg)] *)
Definition add_error (msg : string) (j : Job.t) : Job.t :=
  {| Job.id := Job.id j; Job.status := Job.status j; Job.progress := Job.progress j;
     Job.total := Job.total j; Job.created_at := Job.created_at j;
     Job.completed_at := Job.completed_at j; Job.dataframe := Job.dataframe j;
     Job.detected_columns := Job.detected_columns j;
     Job.results := Job.results j; Job.errors := Job.errors j ++ [msg] |}.

Definition set_completed_at (t : Z) (j : Job.t) : Job.t :=
  {| Job.id := Job.id j; Job.status := Job.status j; Job.progress := Job.progress j;
     Job.total := Job.total j; Job.created_at := Job.created_at j;
     Job.completed_at := Some t; Job.dataframe := Job.dataframe j;
     Job.detected_columns := Job.detected_columns j;
     Job.results := Job.results j; Job.errors := Job.errors j |}.

(** A change to the dictionary of the job [job_id]. *)
Definition update_job (job_id : string) (f : Job.t -> Job.t) : M App unit :=
  modify (fun self => set_jobs (alter f job_id (jobs self)) self).

(** [[]]: a new list object; its place in the heap is returned. *)
Definition new_list : M App nat :=
  fun self => (Ret (length (heap self)), set_heap (heap self ++ [[]]) self).

(** [l.append(r)] for the list at [l]. *)
Definition append (l : nat) (r : SimpleDomainResponse.t) : M App unit :=
  modify (fun self => set_heap (alter (fun rs => rs ++ [r]) l (heap self)) self).

(** The list at [l]. *)
Definition deref (self : App) (l : nat) : list SimpleDomainResponse.t :=
  default [] (heap self !! l).

Definition placeholder (verification_status : string) : SimpleDomainResponse.t :=
  {| SimpleDomainResponse.primary_domain := None;
     SimpleDomainResponse.confidence_score := 0%float;
     SimpleDomainResponse.verification_status := verification_status;
     SimpleDomainResponse.processing_time_ms := 0%Z |}.

Section Manager.
Context (w : World) (ai_model : string).

(** [job_id] stands for the identifier [uuid.uuid4()] draws. *)
Definition create_job (job_id : string) (df : DataFrame)
    (detected_columns : option string * option string) : M App string :=
  let* results := new_list in
  let* self := get in
  modify (set_jobs
            (<[job_id :=
                 {| Job.id := job_id; Job.status := PENDING; Job.progress := 0%Z;
                    Job.total := Z.of_nat (nrows df);
                    Job.created_at := now w (length (trace self));
                    Job.completed_at := None; Job.dataframe := df;
                    Job.detected_columns := detected_columns;
                    Job.results := results; Job.errors := [] |}]> (jobs self))) >>
  ret job_id.

Definition get_job_status (job_id : string) (self : App)
    : option JobStatusResponse.t :=
  match jobs self !! job_id with
  | None => None
  | Some job =>
      Some {| JobStatusResponse.job_id := job_id;
              JobStatusResponse.status := Job.status job;
              JobStatusResponse.progress := Job.progress job;
              JobStatusResponse.total := Job.total job;
              JobStatusResponse.completed_at :=
                match Job.completed_at job with
                | Some t => Some (isoformat w t)
                | None => None
                end;
              JobStatusResponse.download_url :=
                if JobStatus_eqb (Job.status job) COMPLETED
                then Some ("/download/" +:+ job_id) else None;
              JobStatusResponse.errors := Job.errors job |}
  end.

(** The body of the loop over the rows, for the row at position [index];
    [results] is the local list of [process_job]. *)
Definition process_row (job_id : string) (df : DataFrame)
    (company_col location_col : option string) (results : nat) (index : nat)
    : M App unit :=
  try_except
    (let* v := lift (CSV.row_get df index company_col) in
     let company_name := PyStr.strip (CSV.cell_str w v) in
     if isna v || negb (PyStr.truthy company_name) then
       append results (placeholder "empty_input") >>
       update_job job_id incr_progress
     else
       let* location :=
         (if CSV.opt_truthy location_col
          then lift (CSV.prepare_location_string w df index (default "" location_col))
          else ret None) in
       let* result := CSV.process_single_row w ai_model company_name location in
       append results result >>
       update_job job_id incr_progress >>
       update_job job_id (set_results results))
    (fun e =>
       let error_msg :=
         "Error processing row " +:+ PyStr.of_Z (Z.of_nat index + 1)
         +:+ ": " +:+ exn_str e in
       update_job job_id (add_error error_msg) >>
       append results (placeholder "processing_error") >>
       update_job job_id incr_progress >>
       update_job job_id (set_results results)).

(** [process_job] from its start until the loop has handled the first [k]
    rows; the place of the local list is returned. *)
Definition process_rows (job_id : string) (job : Job.t) (k : nat) : M App nat :=
  update_job job_id (set_status PROCESSING) >>
  let df := Job.dataframe job in
  let company_col := fst (Job.detected_columns job) in
  let location_col := snd (Job.detected_columns job) in
  let* results := new_list in
  for_each (process_row job_id df company_col location_col results) (seq 0 k) >>
  ret results.

Definition process_job (job_id : string) : M App unit :=
  let* self := get in
  match jobs self !! job_id with
  | None => ret tt
  | Some job =>
      try_except
        (let df := Job.dataframe job in
         let* results := process_rows job_id job (nrows df) in
         let* self := get in
         let* output_csv :=
           lift (CSV.prepare_output_csv w df (deref self results)) in
         modify (fun self =>
                   set_results_cache (<[job_id := output_csv]> (results_cache self))
                     self) >>
         update_job job_id (set_status COMPLETED) >>
         let* self := get in
         update_job job_id (set_completed_at (now w (length (trace self)))))
        (fun e =>
           let error_msg := "Job " +:+ job_id +:+ " failed: " +:+ exn_str e in
           update_job job_id (set_status FAILED) >>
           update_job job_id (add_error error_msg))
  end.

Definition get_result_csv (job_id : string) (self : App) : option string :=
  match jobs self !! job_id with
  | None => None
  | Some job =>
      if negb (JobStatus_eqb (Job.status job) COMPLETED) then None
      else results_cache self !! job_id
  end.

(** What a reader sees of a job between two rows: the progress counter, the
    total and the list [job['results']] denotes. *)
Definition snapshot (job_id : string) (self : App)
    : option (Z * Z * list SimpleDomainResponse.t) :=
  match jobs self !! job_id with
  | None => None
  | Some job =>
      Some (Job.progress job, Job.total job, deref self (Job.results job))
  end.

End Manager.

Section Cleanup.
Context (w : World).
(** [too_old created now max_age_hours] stands for the test
    [(now - created).total_seconds() / 3600 > max_age_hours], which the
    code makes on datetimes and floats. *)
Context (too_old : Z -> Z -> Z -> bool).

(** [del self.jobs[job_id]], and [del self.results_cache[job_id]] when the
    cache has the key. *)
Definition remove_job (self : App) (job_id : string) : App :=
  set_results_cache (delete job_id (results_cache self))
    (set_jobs (delete job_id (jobs self)) self).

(** The identifiers of the jobs that are too old; the order is that in
    which the dictionary lists its items. *)
Definition to_remove (current_time max_age_hours : Z) (self : App) : list string :=
  map fst
    (List.filter
       (fun item => too_old (Job.created_at (snd item)) current_time max_age_hours)
       (map_to_list (jobs self))).

Definition cleanup_old_jobs (max_age_hours : Z) : M App unit :=
  fun self =>
    let current_time := now w (length (trace self)) in
    (Ret tt,
     fold_left remove_job (to_remove current_time max_age_hours self) self).

End Cleanup.
End Jobs.

(* ===================================================================== *)
(** ** main.py: the routes over the job manager and the services *)
(* ===================================================================== *)

Module Main.
Import Py Models Env.
Local Open Scope py_scope.

(** What a route gives back: the value it returns, or the [HTTPException]
    it raises. *)
Inductive reply (A : Type) :=
| Served (a : A)
| HTTPException (status_code : Z) (detail : string).
Arguments Served {A} a.
Arguments HTTPException {A} status_code detail.

Section Routes.
Context (w : World) (ai_model : string).
(** The key read from the environment when the module is loaded. *)
Context (openrouter_api_key : option string).
(** [str(e)] for an [HTTPException] with the given code and detail, and
    the text an f-string gives for a job status. *)
Context (str_http_exception : Z -> string -> string).
Context (format_status : JobStatus -> string).

(** [if not openrouter_api_key: raise HTTPException(500, ...)]: the
    exception is raised inside the [try] of the route, whose handler for
    [Exception] raises it again with [str(e)] as the detail. *)
Definition key_missing {A} : reply A :=
  HTTPException 500
    (str_http_exception 500 "OpenRouter API key not configured").

(** [POST /enrich] *)
Definition enrich_company_domain (request : CompanyRequest)
    : M App (reply DomainResponse.t) :=
  if negb (CSV.opt_truthy openrouter_api_key) then ret key_missing
  else
    try_except
      (let* result := Enrichment.process_company_request w ai_model request in
       ret (Served result))
      (fun e => ret (HTTPException 500 (exn_str e))).

(** [POST /lookup] *)
Definition lookup_company_domain (company_name : string)
    (location : option string) : M App (reply SimpleDomainResponse.t) :=
  if negb (CSV.opt_truthy openrouter_api_key) then ret key_missing
  else
    try_except
      (let* result := CSV.process_single_row w ai_model company_name location in
       ret (Served result))
      (fun e => ret (HTTPException 500 (exn_str e))).

(** [POST /upload-csv]; [job_id] stands for the identifier [create_job]
    draws.  [start_job_processing] hands [process_job] to the event loop:
    the store is touched when that task runs, not here.  With no table,
    [detect_columns] would fail on [df.columns]. *)
Definition upload_csv_file (job_id : string) (file_content : string)
    : M App (reply CSVUploadResponse.t) :=
  if negb (CSV.opt_truthy openrouter_api_key) then ret key_missing
  else
    let '(is_valid, message, df) := CSV.validate_csv w file_content in
    if negb is_valid then
      ret (Served
             {| CSVUploadResponse.job_id := "";
                CSVUploadResponse.status := FAILED;
                CSVUploadResponse.message := message;
                CSVUploadResponse.total_rows := None |})
    else
      match df with
      | None =>
          ret (HTTPException 500
                 (exn_str (AttributeError
                             "'NoneType' object has no attribute 'columns'")))
      | Some df =>
          let detected_columns := CSV.detect_columns df in
          try_except
            (let* job_id := Jobs.create_job w job_id df detected_columns in
             ret (Served
                    {| CSVUploadResponse.job_id := job_id;
                       CSVUploadResponse.status := PENDING;
                       CSVUploadResponse.message :=
                         "CSV uploaded successfully. Processing "
                         +:+ CSV.rows_text df +:+ " companies.";
                       CSVUploadResponse.total_rows :=
                         Some (Z.of_nat (nrows df)) |}))
            (fun e => ret (HTTPException 500 (exn_str e)))
      end.

(** [GET /status/{job_id}] *)
Definition get_job_status (job_id : string) (self : App)
    : reply JobStatusResponse.t :=
  match Jobs.get_job_status w job_id self with
  | None => HTTPException 404 "Job not found"
  | Some status => Served status
  end.

(** [GET /download/{job_id}]: the content of the response. *)
Definition download_csv_results (job_id : string) (self : App) : reply string :=
  match Jobs.get_job_status w job_id self with
  | None => HTTPException 404 "Job not found"
  | Some status =>
      if negb (JobStatus_eqb (JobStatusResponse.status status) COMPLETED) then
        HTTPException 400
          ("Job is not completed. Current status: "
           +:+ format_status (JobStatusResponse.status status))
      else
        match Jobs.get_result_csv job_id self with
        | Some csv_content =>
            if PyStr.truthy csv_content then Served csv_content
            else HTTPException 404 "Results not found"
        | None => HTTPException 404 "Results not found"
        end
  end.

End Routes.
End Main.

(* ===================================================================== *)
(** ** Worlds and tables for the examples *)
(* ===================================================================== *)

Module Samples.
Import Py Models Env.

Fixpoint dedupe (seen : list string) (xs : list string) : list string :=
  match xs with
  | [] => []
  | x :: xs' =>
      if existsb (String.eqb x) seen then dedupe seen xs'
      else x :: dedupe (x :: seen) xs'
  end.

(** [json.loads] on the texts the examples use. *)
Definition sample_loads (s : string) : outcome pyval :=
  if String.eqb s "[]" then Ret (PList [])
  else if String.eqb s "null" then Ret PNone
  else Raise (JSONDecodeError "Expecting value: line 1 column 1 (char 0)").

Definition refused {A} : outcome A := Raise (TransportError "connection refused").

(** No server answers. *)
Definition offline : World :=
  {| http_get := fun _ _ _ => refused;
     http_post := fun _ _ => refused;
     http_head := fun _ _ => refused;
     json_loads := sample_loads;
     py_str := fun _ => "";
     float_str := fun _ => "";
     set_order := dedupe [];
     elapsed_ms := fun _ _ => 0%Z;
     coerce_str := fun _ => Raise (ValidationError "primary_domain");
     coerce_float := fun _ => Raise (ValidationError "confidence_score");
     coerce_str_list := fun _ => Raise (ValidationError "domains_considered");
     read_csv := fun _ => Raise (EmptyDataError "No columns to parse from file");
     to_csv := fun df => PyStr.join "," (column_names df);
     assign_mismatch := fun _ _ _ =>
       Raise (ValueError "Length of values does not match length of index");
     now := fun t => Z.of_nat t;
     isoformat := PyStr.of_Z |}.

Definition with_get (get : nat -> string -> string -> outcome Response)
    (w : World) : World :=
  {| http_get := get; http_post := http_post w; http_head := http_head w;
     json_loads := json_loads w; py_str := py_str w; float_str := float_str w;
     set_order := set_order w; elapsed_ms := elapsed_ms w;
     coerce_str := coerce_str w; coerce_float := coerce_float w;
     coerce_str_list := coerce_str_list w; read_csv := read_csv w;
     to_csv := to_csv w; assign_mismatch := assign_mismatch w;
     now := now w; isoformat := isoformat w |}.

Definition with_post (post : nat -> Prompt -> outcome Response)
    (w : World) : World :=
  {| http_get := http_get w; http_post := post; http_head := http_head w;
     json_loads := json_loads w; py_str := py_str w; float_str := float_str w;
     set_order := set_order w; elapsed_ms := elapsed_ms w;
     coerce_str := coerce_str w; coerce_float := coerce_float w;
     coerce_str_list := coerce_str_list w; read_csv := read_csv w;
     to_csv := to_csv w; assign_mismatch := assign_mismatch w;
     now := now w; isoformat := isoformat w |}.

Definition with_head (head : nat -> string -> outcome Response)
    (w : World) : World :=
  {| http_get := http_get w; http_post := http_post w; http_head := head;
     json_loads := json_loads w; py_str := py_str w; float_str := float_str w;
     set_order := set_order w; elapsed_ms := elapsed_ms w;
     coerce_str := coerce_str w; coerce_float := coerce_float w;
     coerce_str_list := coerce_str_list w; read_csv := read_csv w;
     to_csv := to_csv w; assign_mismatch := assign_mismatch w;
     now := now w; isoformat := isoformat w |}.

(** Whatever the file holds, it is read as the table [df]. *)
Definition reads (df : DataFrame) : World :=
  {| http_get := http_get offline; http_post := http_post offline;
     http_head := http_head offline;
     json_loads := json_loads offline; py_str := py_str offline;
     float_str := float_str offline;
     set_order := set_order offline; elapsed_ms := elapsed_ms offline;
     coerce_str := coerce_str offline; coerce_float := coerce_float offline;
     coerce_str_list := coerce_str_list offline;
     read_csv := fun _ => Ret df;
     to_csv := to_csv offline; assign_mismatch := assign_mismatch offline;
     now := now offline; isoformat := isoformat offline |}.

Definition status_only (code : Z) : Response :=
  {| status_code := code; json := Raise (JSONDecodeError "Expecting value") |}.

(** The HTTPS origin answers 404, the HTTP origin 200. *)
Definition https_404_http_200 : World :=
  with_head
    (fun _ url =>
       if PyStr.startswith "https://" url then Ret (status_only 404)
       else Ret (status_only 200))
    offline.

(** The HTTPS origin is unreachable, the HTTP origin answers 200. *)
Definition https_down_http_200 : World :=
  with_head
    (fun _ url =>
       if PyStr.startswith "https://" url then refused
       else Ret (status_only 200))
    offline.

Definition acme_hit : pyval :=
  PDict [("title", PStr "Acme Corporation");
         ("url", PStr "https://acme.example/");
         ("content", PStr "Acme makes everything.")].

Definition search_body (hits : list pyval) : Response :=
  {| status_code := 200; json := Ret (PDict [("results", PList hits)]) |}.

Definition chat_body (content : pyval) : Response :=
  {| status_code := 200;
     json := Ret (PDict [("choices",
                    PList [PDict [("message", PDict [("content", content)])]])]) |}.

(** Every search answers, with no hit. *)
Definition no_hits : World :=
  with_get (fun _ _ _ => Ret (search_body [])) offline.

(** Of the three search endpoints only the last fallback answers. *)
Definition only_last_fallback : World :=
  with_get
    (fun _ url _ =>
       if PyStr.startswith "https://searx.space" url then Ret (search_body [acme_hit])
       else refused)
    offline.

(** The search finds a hit; the adjudicator answers with the JSON text [[]]. *)
Definition adjudicator_says_list : World :=
  with_post (fun _ _ => Ret (chat_body (PStr "[]")))
    (with_get (fun _ _ _ => Ret (search_body [acme_hit])) offline).

(** The search finds a hit; the adjudicator answers 503. *)
Definition adjudicator_unavailable : World :=
  with_post (fun _ _ => Ret (status_only 503))
    (with_get (fun _ _ _ => Ret (search_body [acme_hit])) offline).

(** The search backend lists a hit that is a string, not an object. *)
Definition hit_is_a_string : World :=
  with_get (fun _ _ _ => Ret (search_body [PStr "Acme"])) offline.

(** A process that has just started: no request made, no job. *)
Definition fresh : App :=
  {| base_url := "https://searx.be"; trace := []; jobs := ∅;
     results_cache := ∅; heap := [] |}.

Definition acme_request : CompanyRequest :=
  {| company_name := "Acme Corp";
     address := CompanyAddress_city_state "Austin" "TX" |}.

(** The table of the file [company,city / ,Austin / Acme,]. *)
Definition leading_blank : DataFrame :=
  {| nrows := 2;
     columns :=
       [ {| col_name := "company"; col_dtype := DObject;
            col_cells := [CNaN; CStr "Acme"] |};
         {| col_name := "city"; col_dtype := DObject;
            col_cells := [CStr "Austin"; CNaN] |} ] |}.

(** The table of the file [company,city / " ",Austin]: the only name is a
    blank. *)
Definition blank_name : DataFrame :=
  {| nrows := 1;
     columns :=
       [ {| col_name := "company"; col_dtype := DObject;
            col_cells := [CStr " "] |};
         {| col_name := "city"; col_dtype := DObject;
            col_cells := [CStr "Austin"] |} ] |}.

Definition leading_blank_file : string := "company,city
,Austin
Acme,
".

Definition blank_name_file : string := "company,city
 ,Austin
".


(** The store after [create_job] has registered the table [df] as the job
    "job-1" in a process that has just started. *)
Definition submitted (df : DataFrame) : App :=
  snd (Jobs.create_job offline "job-1" df (CSV.detect_columns df) fresh).

(** The store when [process_job] has handled the first [k] rows. *)
Definition during (df : DataFrame) (k : nat) : App :=
  match jobs (submitted df) !! "job-1" with
  | Some job =>
      snd (Jobs.process_rows offline "moonshotai/kimi-k2" "job-1" job k (submitted df))
  | None => submitted df
  end.

(** The store when [process_job] has ended. *)
Definition finished (df : DataFrame) : App :=
  snd (Jobs.process_job offline "moonshotai/kimi-k2" "job-1" (submitted df)).



End Samples.

(* ===================================================================== *)
(** * Properties *)
(* ===================================================================== *)

(** ** Splitting and joining *)

Module PyStrFacts.
Import PyStr.

Lemma split_not_nil sep s : split sep s <> [].
Proof.
  destruct s as [|c s]; simpl; [discriminate|].
  destruct (Ascii.eqb c sep); [discriminate|].
  destruct (split sep s); discriminate.
Qed.




Lemma truthy_nonempty s : s <> EmptyString -> truthy s = true.
Proof. destruct s; [congruence | reflexivity]. Qed.

End PyStrFacts.

(** ** Location parsing *)

Module CSVFacts.
Import Py Models Env CSV PyStr.



End CSVFacts.

(** ** Reading a job *)

Module JobReadFacts.
Import Py Models Env Jobs.

Lemma JobStatus_eqb_eq a b : JobStatus_eqb a b = true <-> a = b.
Proof. destruct a, b; simpl; split; congruence. Qed.

(** C9. [get_result_csv] hands out the cached artifact only for a job that
    exists and whose status is completed, and then it is what the cache
    holds for the job; for an unknown id and for a job that is pending,
    processing or failed it returns nothing. *)
Theorem get_result_csv_only_completed (job_id : string) (self : App) :
  (forall csv, get_result_csv job_id self = Some csv ->
     exists job, jobs self !! job_id = Some job
                 /\ Job.status job = COMPLETED
                 /\ results_cache self !! job_id = Some csv)
  /\ (jobs self !! job_id = None -> get_result_csv job_id self = None)
  /\ (forall job, jobs self !! job_id = Some job ->
        Job.status job = PENDING \/ Job.status job = PROCESSING
        \/ Job.status job = FAILED ->
        get_result_csv job_id self = None)
  /\ (forall job, jobs self !! job_id = Some job ->
        Job.status job = COMPLETED ->
        get_result_csv job_id self = results_cache self !! job_id).
Proof.
  unfold get_result_csv. repeat apply conj.
  - intros csv H. destruct (jobs self !! job_id) as [job|] eqn:Hj; [|discriminate].
    exists job. destruct (JobStatus_eqb (Job.status job) COMPLETED) eqn:E;
      simpl in H; [|discriminate].
    apply JobStatus_eqb_eq in E. auto.
  - intros ->. reflexivity.
  - intros job -> Hs. destruct Hs as [-> | [-> | ->]]; reflexivity.
  - intros job -> ->. reflexivity.
Qed.

(** C10. For a job that exists, the snapshot of [get_job_status] reports the
    job's status and carries a download URL exactly when that status is
    completed; for an unknown id there is no snapshot. *)
Theorem download_url_iff_completed (w : World) (job_id : string) (self : App) :
  (jobs self !! job_id = None -> get_job_status w job_id self = None)
  /\ (forall job, jobs self !! job_id = Some job ->
        exists r, get_job_status w job_id self = Some r
                  /\ JobStatusResponse.status r = Job.status job
                  /\ (JobStatusResponse.download_url r <> None
                      <-> Job.status job = COMPLETED)).
Proof.
  unfold get_job_status. split.
  - intros ->. reflexivity.
  - intros job ->. eexists. split; [reflexivity|]. simpl. split; [reflexivity|].
    destruct (Job.status job); simpl; split; congruence.
Qed.

End JobReadFacts.

(** ** Verification of a domain *)

Module VerifyFacts.
Import Py Models Env Enrichment Samples.

(** C1, as the code has it.  The HTTPS probe comes first.  When it returns
    a response, that response decides and no HTTP probe is made: a status
    below 400 gives "verified", a status of 400 or more gives
    "inaccessible".  Only when the HTTPS probe raises (an error or a
    timeout) is the HTTP probe made: a status below 400 gives "http_only",
    a status of 400 or more gives "inaccessible", and an HTTP probe that
    raises gives "unreachable". *)
Theorem verify_domain_status (w : World) (domain : pyval) (self : App) :
  let t := length (trace self) in
  let https_url := "https://" +:+ format_value w domain in
  let http_url := "http://" +:+ format_value w domain in
  let https := http_head w t https_url in
  let http := http_head w (S t) http_url in
  let result := fst (verify_domain w domain self) in
  let probes := trace (snd (verify_domain w domain self)) in
  (forall r, https = Ret r -> (status_code r < 400)%Z ->
     result = Ret "verified" /\ probes = EvHead https_url :: trace self)
  /\ (forall r, https = Ret r -> (400 <= status_code r)%Z ->
     result = Ret "inaccessible" /\ probes = EvHead https_url :: trace self)
  /\ (forall e, https = Raise e ->
     probes = EvHead http_url :: EvHead https_url :: trace self
     /\ (forall r, http = Ret r -> (status_code r < 400)%Z ->
           result = Ret "http_only")
     /\ (forall r, http = Ret r -> (400 <= status_code r)%Z ->
           result = Ret "inaccessible")
     /\ (forall e', http = Raise e' -> result = Ret "unreachable")).
Proof.
  cbv zeta. unfold verify_domain, try_except, bind, request, ret. simpl.
  repeat apply conj.
  - intros r -> Hlt. apply Z.ltb_lt in Hlt. rewrite Hlt. auto.
  - intros r -> Hge. apply Z.ltb_ge in Hge. rewrite Hge. auto.
  - intros e ->. simpl. repeat apply conj.
    + destruct (http_head w (S (length (trace self))) _) as [r|e'];
        [destruct (status_code r <? 400)%Z|]; reflexivity.
    + intros r -> Hlt. apply Z.ltb_lt in Hlt. rewrite Hlt. reflexivity.
    + intros r -> Hge. apply Z.ltb_ge in Hge. rewrite Hge. reflexivity.
    + intros e' ->. reflexivity.
Qed.

(** C1 as stated fails: the HTTPS origin answers 404 and the HTTP origin
    would answer 200, yet the status is "inaccessible", not "http_only". *)
Lemma verify_domain_https_404 :
  (400 <=? 404)%Z = true
  /\ http_head https_404_http_200 0 "https://acme.example" = Ret (status_only 404)
  /\ http_head https_404_http_200 1 "http://acme.example" = Ret (status_only 200)
  /\ fst (verify_domain https_404_http_200 (PStr "acme.example") fresh)
     = Ret "inaccessible"
  /\ fst (verify_domain https_404_http_200 (PStr "acme.example") fresh)
     <> Ret "http_only".
Proof. repeat apply conj; try reflexivity. discriminate. Qed.

End VerifyFacts.

(** ** What a computation leaves untouched *)

Module KeepFacts.
Import Py Models Env.

Section Keeps.
Context {S : Type} (R : S -> S -> Prop).
Hypothesis R_refl : forall s, R s s.
Hypothesis R_trans : forall a b c, R a b -> R b c -> R a c.

Lemma keeps_ret {A} (a : A) : keeps R (ret a).
Proof. intros s. apply R_refl. Qed.

Lemma keeps_raise {A} (e : exn) : keeps R (@raise S A e).
Proof. intros s. apply R_refl. Qed.

Lemma keeps_lift {A} (o : outcome A) : keeps R (lift o).
Proof. intros s. apply R_refl. Qed.

Lemma keeps_get : keeps R (@get S).
Proof. intros s. apply R_refl. Qed.

Lemma keeps_bind {A B} (m : M S A) (k : A -> M S B) :
  keeps R m -> (forall a, keeps R (k a)) -> keeps R (bind m k).
Proof.
  intros Hm Hk s. unfold bind. specialize (Hm s).
  destruct (m s) as [[a|e] s']; simpl in *; [|assumption].
  eapply R_trans; [exact Hm | apply Hk].
Qed.

Lemma keeps_try_except {A} (m : M S A) (h : exn -> M S A) :
  keeps R m -> (forall e, keeps R (h e)) -> keeps R (try_except m h).
Proof.
  intros Hm Hh s. unfold try_except. specialize (Hm s).
  destruct (m s) as [[a|e] s']; simpl in *; [assumption|].
  eapply R_trans; [exact Hm | apply Hh].
Qed.

Lemma keeps_try_except_class {A} C (m : M S A) (h : exn -> M S A) :
  keeps R m -> (forall e, keeps R (h e)) -> keeps R (try_except_class C m h).
Proof.
  intros Hm Hh s. unfold try_except_class. specialize (Hm s).
  destruct (m s) as [[a|e] s']; simpl in *; [assumption|].
  destruct (C e); simpl; [|assumption].
  eapply R_trans; [exact Hm | apply Hh].
Qed.

Lemma keeps_modify (f : S -> S) : (forall s, R s (f s)) -> keeps R (modify f).
Proof. intros Hf s. apply Hf. Qed.

Lemma keeps_for_each {A B} (f : A -> M S B) (l : list A) :
  (forall a, keeps R (f a)) -> keeps R (for_each f l).
Proof.
  intros Hf. induction l as [|x l IH]; simpl.
  - apply keeps_ret.
  - apply keeps_bind; [apply Hf|]. intros y.
    apply keeps_bind; [apply IH|]. intros ys. apply keeps_ret.
Qed.

End Keeps.

Lemma same_posts_refl a : same_posts a a.
Proof. reflexivity. Qed.

Lemma same_posts_trans a b c : same_posts a b -> same_posts b c -> same_posts a c.
Proof. unfold same_posts. congruence. Qed.

Lemma same_jobs_refl a : same_jobs a a.
Proof. repeat split. Qed.

Lemma same_jobs_trans a b c : same_jobs a b -> same_jobs b c -> same_jobs a c.
Proof. unfold same_jobs. intros (?&?&?) (?&?&?). repeat split; congruence. Qed.

(** A request leaves the jobs alone; unless it is a POST, it leaves the
    requests to the adjudicator as they were. *)
Lemma request_same_jobs {A} e (answer : nat -> outcome A) :
  keeps same_jobs (request e answer).
Proof. intros s. repeat split. Qed.

Lemma request_same_posts {A} e (answer : nat -> outcome A) :
  is_post e = false -> keeps same_posts (request e answer).
Proof.
  intros He s. unfold same_posts, request. simpl. rewrite He. reflexivity.
Qed.

Lemma set_base_url_same_jobs u : keeps same_jobs (modify (set_base_url u)).
Proof. intros s. repeat split. Qed.

Lemma set_base_url_same_posts u : keeps same_posts (modify (set_base_url u)).
Proof. intros s. reflexivity. Qed.

(** The steps of a computation are taken apart goal by goal. *)
Ltac keeps_steps refl trans :=
  repeat
    match goal with
    | |- keeps _ (let _ := _ in _) => cbv zeta
    | |- keeps _ (ret _) => apply (keeps_ret _ refl)
    | |- keeps _ (raise _) => apply (keeps_raise _ refl)
    | |- keeps _ (lift _) => apply (keeps_lift _ refl)
    | |- keeps _ get => apply (keeps_get _ refl)
    | |- keeps _ (bind _ _) => apply (keeps_bind _ trans); [|intros ?]
    | |- keeps _ (try_except _ _) =>
        apply (keeps_try_except _ trans); [|intros ?]
    | |- keeps _ (try_except_class _ _ _) =>
        apply (keeps_try_except_class _ trans); [|intros ?]
    | |- keeps _ (for_each _ _) => apply (keeps_for_each _ refl trans); intros ?
    | |- keeps same_jobs (request _ _) => apply request_same_jobs
    | |- keeps same_posts (request _ _) => apply request_same_posts; reflexivity
    | |- keeps same_jobs (modify (set_base_url _)) => apply set_base_url_same_jobs
    | |- keeps same_posts (modify (set_base_url _)) => apply set_base_url_same_posts
    | |- keeps _ (if ?b then _ else _) => destruct b
    | |- keeps _ (match ?x with _ => _ end) => destruct x
    end.

Section Services.
Context (w : World) (ai_model : string).

Lemma _perform_search_same_posts query limit :
  keeps same_posts (SearXNG._perform_search w query limit).
Proof.
  unfold SearXNG._perform_search.
  keeps_steps same_posts_refl same_posts_trans.
Qed.

Lemma _perform_search_same_jobs query limit :
  keeps same_jobs (SearXNG._perform_search w query limit).
Proof.
  unfold SearXNG._perform_search.
  keeps_steps same_jobs_refl same_jobs_trans.
Qed.

Lemma try_fallbacks_same_posts query limit fallbacks :
  keeps same_posts (SearXNG.try_fallbacks w query limit fallbacks).
Proof.
  induction fallbacks as [|u rest IH]; simpl.
  - apply (keeps_ret _ same_posts_refl).
  - apply (keeps_try_except _ same_posts_trans); [|intros _; exact IH].
    pose proof (_perform_search_same_posts query limit).
    keeps_steps same_posts_refl same_posts_trans; assumption.
Qed.

Lemma try_fallbacks_same_jobs query limit fallbacks :
  keeps same_jobs (SearXNG.try_fallbacks w query limit fallbacks).
Proof.
  induction fallbacks as [|u rest IH]; simpl.
  - apply (keeps_ret _ same_jobs_refl).
  - apply (keeps_try_except _ same_jobs_trans); [|intros _; exact IH].
    pose proof (_perform_search_same_jobs query limit).
    keeps_steps same_jobs_refl same_jobs_trans; assumption.
Qed.

Lemma search_same_posts query limit :
  keeps same_posts (SearXNG.search w query limit).
Proof.
  apply (keeps_try_except _ same_posts_trans).
  - apply _perform_search_same_posts.
  - intros _. apply try_fallbacks_same_posts.
Qed.

Lemma search_same_jobs query limit :
  keeps same_jobs (SearXNG.search w query limit).
Proof.
  apply (keeps_try_except _ same_jobs_trans).
  - apply _perform_search_same_jobs.
  - intros _. apply try_fallbacks_same_jobs.
Qed.

Lemma collect_results_same_posts queries acc :
  keeps same_posts (Enrichment.collect_results w queries acc).
Proof.
  revert acc. induction queries as [|q rest IH]; intros acc; simpl.
  - apply (keeps_ret _ same_posts_refl).
  - apply (keeps_bind _ same_posts_trans); [apply search_same_posts|].
    intros results. apply (keeps_bind _ same_posts_trans).
    + apply (keeps_lift _ same_posts_refl).
    + intros items. apply IH.
Qed.

Lemma collect_results_same_jobs queries acc :
  keeps same_jobs (Enrichment.collect_results w queries acc).
Proof.
  revert acc. induction queries as [|q rest IH]; intros acc; simpl.
  - apply (keeps_ret _ same_jobs_refl).
  - apply (keeps_bind _ same_jobs_trans); [apply search_same_jobs|].
    intros results. apply (keeps_bind _ same_jobs_trans).
    + apply (keeps_lift _ same_jobs_refl).
    + intros items. apply IH.
Qed.

Lemma analyze_same_jobs name addr hits :
  keeps same_jobs (Enrichment.analyze_results_with_ai w name addr hits).
Proof.
  unfold Enrichment.analyze_results_with_ai.
  destruct hits as [|h rest].
  - apply (keeps_ret _ same_jobs_refl).
  - keeps_steps same_jobs_refl same_jobs_trans.
Qed.

Lemma verify_domain_same_jobs d :
  keeps same_jobs (Enrichment.verify_domain w d).
Proof.
  unfold Enrichment.verify_domain.
  keeps_steps same_jobs_refl same_jobs_trans.
Qed.

Lemma process_company_request_same_jobs req :
  keeps same_jobs (Enrichment.process_company_request w ai_model req).
Proof.
  unfold Enrichment.process_company_request.
  pose proof collect_results_same_jobs as Hc.
  pose proof analyze_same_jobs as Ha.
  pose proof verify_domain_same_jobs as Hv.
  keeps_steps same_jobs_refl same_jobs_trans; auto.
Qed.

Lemma process_single_row_same_jobs name loc :
  keeps same_jobs (CSV.process_single_row w ai_model name loc).
Proof.
  unfold CSV.process_single_row.
  pose proof process_company_request_same_jobs as Hp.
  keeps_steps same_jobs_refl same_jobs_trans; auto.
Qed.

End Services.
End KeepFacts.

(** ** Enrichment without hits *)

Module NoHitsFacts.
Import Py Models Env Enrichment Samples.

(** C5. When the searches for all the generated queries collect no hit, the
    request ends in a response with no primary domain, confidence 0.0 and
    verification status "no_domain_found", and no request is sent to the
    adjudicator. *)
Theorem no_hits_no_adjudication (w : World) (ai_model : string)
    (request : CompanyRequest) (self : App) :
  fst (collect_results w
         (generate_search_queries w (company_name request) (address request))
         [] self) = Ret [] ->
  exists response self',
    process_company_request w ai_model request self = (Ret response, self')
    /\ DomainResponse.primary_domain response = None
    /\ DomainResponse.confidence_score response = 0%float
    /\ DomainResponse.verification_status response = "no_domain_found"
    /\ List.filter is_post (trace self') = List.filter is_post (trace self).
Proof.
  intros Hnone.
  pose proof (KeepFacts.collect_results_same_posts w
                (generate_search_queries w (company_name request) (address request))
                [] self) as Hposts.
  unfold process_company_request, bind, get.
  destruct (collect_results w _ [] self) as [hits s1] eqn:E.
  simpl in Hnone, Hposts. subst hits. simpl.
  eexists. eexists. split; [reflexivity|]. simpl.
  repeat split. exact Hposts.
Qed.

Lemma no_hits_no_adjudication_witness :
  exists response self',
    process_company_request no_hits "moonshotai/kimi-k2" acme_request fresh
    = (Ret response, self')
    /\ DomainResponse.primary_domain response = None
    /\ DomainResponse.confidence_score response = 0%float
    /\ DomainResponse.verification_status response = "no_domain_found"
    /\ List.filter is_post (trace self') = List.filter is_post (trace fresh).
Proof.
  apply (no_hits_no_adjudication no_hits "moonshotai/kimi-k2" acme_request fresh).
  vm_compute. reflexivity.
Defined.

End NoHitsFacts.

(** ** Failures of the adjudicator *)

Module AdjudicatorFacts.
Import Py Models Env Enrichment Samples.

Lemma first_char_differs (a b : ascii) (s t : string) :
  a <> b -> String a s <> String b t.
Proof. congruence. Qed.

(** The request ends well when the analysis has no domain to name. *)
Lemma degraded_analysis_ends_request (w : World) (ai_model : string)
    (request : CompanyRequest) (s0 s1 s2 : App) (hits : list pyval)
    (why : string) :
  collect_results w
    (generate_search_queries w (company_name request) (address request)) [] s0
  = (Ret hits, s1) ->
  analyze_results_with_ai w (company_name request) (address request) hits s1
  = (Ret (no_domain why), s2) ->
  exists response,
    process_company_request w ai_model request s0 = (Ret response, s2)
    /\ DomainResponse.primary_domain response = None
    /\ DomainResponse.confidence_score response = 0%float
    /\ DomainResponse.verification_status response = "no_domain_found"
    /\ reasoning (DomainResponse.metadata response) = PStr why.
Proof.
  intros Hhits Hrun. unfold process_company_request, bind, get.
  rewrite Hhits. simpl. rewrite Hrun. simpl.
  eexists. split; [reflexivity|]. simpl. repeat split.
Qed.

(** C7, as the code has it.  Take a request whose searches have collected
    hits from which the prompt can be built.  Then a request is sent to the
    adjudicator and [analyze_results_with_ai] raises nothing.  It returns
    the dictionary with no primary domain and confidence 0.0, and the
    engine returns a response with no primary domain, confidence 0.0 and
    the same reasoning, which is
    - "Error: <text of the exception>" when the request raises, when the
      content cannot be taken out of the response, and when decoding the
      content raises anything but a JSON decoding error;
    - "AI API error: <status code>" when the status is not 200;
    - "Failed to parse AI response" when the content is not JSON text;
    and the three reasonings differ from one another.  Content that is JSON
    text is returned as it was decoded: its shape is not looked at. *)
Theorem adjudicator_failure_degrades (w : World) (ai_model : string)
    (request : CompanyRequest) (s0 self : App) (search_results : list pyval)
    (formatted : list (pyval * pyval * pyval)) :
  collect_results w
    (generate_search_queries w (company_name request) (address request)) [] s0
  = (Ret search_results, self) ->
  search_results <> [] ->
  traverse format_result (firstn 25 search_results) = Ret formatted ->
  let prompt := build_prompt (company_name request) (address request) formatted in
  let reply := http_post w (length (trace self)) prompt in
  let run :=
    analyze_results_with_ai w (company_name request) (address request)
      search_results self in
  let degraded why :=
    fst run = Ret (no_domain why)
    /\ exists response,
         fst (process_company_request w ai_model request s0) = Ret response
         /\ DomainResponse.primary_domain response = None
         /\ DomainResponse.confidence_score response = 0%float
         /\ reasoning (DomainResponse.metadata response) = PStr why in
  trace (snd run) = EvPost prompt :: trace self
  /\ (exists v, fst run = Ret v)
  /\ (forall e, reply = Raise e -> degraded ("Error: " +:+ exn_str e))
  /\ (forall r, reply = Ret r -> status_code r <> 200%Z ->
        degraded ("AI API error: " +:+ PyStr.of_Z (status_code r)))
  /\ (forall r e, reply = Ret r -> status_code r = 200%Z ->
        message_content r = Raise e ->
        degraded ("Error: " +:+ exn_str e))
  /\ (forall r content e, reply = Ret r -> status_code r = 200%Z ->
        message_content r = Ret content -> loads w content = Raise e ->
        degraded (if is_JSONDecodeError e
                  then "Failed to parse AI response"
                  else "Error: " +:+ exn_str e))
  /\ (forall r content v, reply = Ret r -> status_code r = 200%Z ->
        message_content r = Ret content -> loads w content = Ret v ->
        fst run = Ret v)
  /\ (forall code text,
        "Failed to parse AI response" <> "AI API error: " +:+ PyStr.of_Z code
        /\ "Failed to parse AI response" <> "Error: " +:+ text
        /\ "AI API error: " +:+ PyStr.of_Z code <> "Error: " +:+ text).
Proof.
  intros Hhits Hne Hfmt prompt reply run degraded.
  assert (Hrun : run =
    match reply with
    | Raise e => (Ret (no_domain ("Error: " +:+ exn_str e)), push_event (EvPost prompt) self)
    | Ret r =>
        if (status_code r =? 200)%Z then
          match message_content r with
          | Raise e => (Ret (no_domain ("Error: " +:+ exn_str e)),
                        push_event (EvPost prompt) self)
          | Ret content =>
              match loads w content with
              | Ret v => (Ret v, push_event (EvPost prompt) self)
              | Raise e =>
                  (Ret (no_domain (if is_JSONDecodeError e
                                   then "Failed to parse AI response"
                                   else "Error: " +:+ exn_str e)),
                   push_event (EvPost prompt) self)
              end
          end
        else (Ret (no_domain ("AI API error: " +:+ PyStr.of_Z (status_code r))),
              push_event (EvPost prompt) self)
    end).
  { subst run. unfold analyze_results_with_ai.
    destruct search_results as [|hit rest]; [congruence|].
    rewrite Hfmt. unfold bind at 1. unfold lift at 1.
    fold prompt. unfold try_except, bind, Env.request. fold reply.
    destruct reply as [r|e]; [|reflexivity].
    destruct (status_code r =? 200)%Z; [|reflexivity].
    unfold lift at 1. destruct (message_content r) as [content|e]; [|reflexivity].
    unfold try_except_class, lift.
    destruct (loads w content) as [v|e]; [reflexivity|].
    destruct (is_JSONDecodeError e); reflexivity. }
  assert (Hdeg : forall why s2, run = (Ret (no_domain why), s2) -> degraded why).
  { intros why s2 Hr. split; [rewrite Hr; reflexivity|].
    destruct (degraded_analysis_ends_request w ai_model request s0 self s2
                search_results why Hhits Hr) as (resp & Hreq & Hd & Hc & _ & Hw).
    exists resp. rewrite Hreq. auto. }
  repeat apply conj.
  - rewrite Hrun. destruct reply as [r|e]; [|reflexivity].
    destruct (status_code r =? 200)%Z; [|reflexivity].
    destruct (message_content r) as [content|e]; [|reflexivity].
    destruct (loads w content); reflexivity.
  - rewrite Hrun. destruct reply as [r|e]; [|eexists; reflexivity].
    destruct (status_code r =? 200)%Z; [|eexists; reflexivity].
    destruct (message_content r) as [content|e]; [|eexists; reflexivity].
    destruct (loads w content); eexists; reflexivity.
  - intros e He. eapply Hdeg. rewrite Hrun, He. reflexivity.
  - intros r Hr Hs. eapply Hdeg. rewrite Hrun, Hr.
    apply Z.eqb_neq in Hs. rewrite Hs. reflexivity.
  - intros r e Hr Hs Hc. eapply Hdeg. rewrite Hrun, Hr, Hs, Hc. reflexivity.
  - intros r content e Hr Hs Hc Hl. eapply Hdeg.
    rewrite Hrun, Hr, Hs, Hc, Hl. reflexivity.
  - intros r content v Hr Hs Hc Hl. rewrite Hrun, Hr, Hs, Hc, Hl. reflexivity.
  - intros code text. repeat apply conj; apply first_char_differs; discriminate.
Qed.

Lemma adjudicator_failure_degrades_witness :
  exists response,
    fst (process_company_request adjudicator_unavailable "moonshotai/kimi-k2"
           acme_request fresh) = Ret response
    /\ DomainResponse.primary_domain response = None
    /\ DomainResponse.confidence_score response = 0%float
    /\ reasoning (DomainResponse.metadata response) = PStr "AI API error: 503".
Proof.
  edestruct (adjudicator_failure_degrades adjudicator_unavailable
               "moonshotai/kimi-k2" acme_request fresh)
    as (_ & _ & _ & H & _).
  - lazy. reflexivity.
  - discriminate.
  - lazy. reflexivity.
  - apply (H (status_only 503) eq_refl). discriminate.
Defined.

(** C7 as stated fails: the adjudicator's content is the JSON text of a list,
    which is not the expected object; the analysis returns the list, not the
    dictionary without a domain, and the request raises out of the engine. *)
Lemma adjudicator_other_shape_escapes :
  json_loads adjudicator_says_list "[]" = Ret (PList [])
  /\ fst (analyze_results_with_ai adjudicator_says_list "Acme Corp"
            (address acme_request) [acme_hit] fresh) = Ret (PList [])
  /\ subscript_str (PList []) "primary_domain"
     = Raise (TypeError "list indices must be integers or slices, not str")
  /\ fst (process_company_request adjudicator_says_list "moonshotai/kimi-k2"
            acme_request fresh)
     = Raise (AttributeError "'list' object has no attribute 'get'").
Proof. repeat apply conj; vm_compute; reflexivity. Qed.

End AdjudicatorFacts.

(** ** The boundary of a row *)

Module RowFacts.
Import Py Models Env CSV Samples.

(** C3, as the code has it.  When the enrichment of the request made from
    the name and the parsed location raises, [process_single_row] raises
    nothing and returns the result with no domain, confidence 0.0,
    verification status "error" and duration 0; and whatever the engine
    does, [process_single_row] returns. *)
Theorem process_single_row_absorbs (w : World) (ai_model : string)
    (company_name : string) (location : option string) (self self' : App)
    (e : exn) :
  Enrichment.process_company_request w ai_model
    {| company_name := company_name; address := parse_location location |} self
  = (Raise e, self') ->
  process_single_row w ai_model company_name location self
  = (Ret {| SimpleDomainResponse.primary_domain := None;
            SimpleDomainResponse.confidence_score := 0%float;
            SimpleDomainResponse.verification_status := "error";
            SimpleDomainResponse.processing_time_ms := 0%Z |}, self')
  /\ (forall name where_ store,
        exists r, fst (process_single_row w ai_model name where_ store) = Ret r).
Proof.
  intros Hraise. split.
  - unfold process_single_row, try_except, bind. rewrite Hraise. reflexivity.
  - intros name where_ store. unfold process_single_row, try_except, bind.
    destruct (Enrichment.process_company_request w ai_model _ store) as [[r|e'] s'];
      eexists; reflexivity.
Qed.

Lemma process_single_row_absorbs_witness :
  fst (process_single_row hit_is_a_string "moonshotai/kimi-k2" "Acme" None fresh)
  = Ret {| SimpleDomainResponse.primary_domain := None;
           SimpleDomainResponse.confidence_score := 0%float;
           SimpleDomainResponse.verification_status := "error";
           SimpleDomainResponse.processing_time_ms := 0%Z |}.
Proof.
  pose proof (process_single_row_absorbs hit_is_a_string "moonshotai/kimi-k2"
                "Acme" None fresh
                (snd (Enrichment.process_company_request hit_is_a_string
                        "moonshotai/kimi-k2"
                        {| company_name := "Acme"; address := parse_location None |}
                        fresh))
                (AttributeError "'str' object has no attribute 'get'")) as H.
  destruct (H ltac:(vm_compute; reflexivity)) as [Hrow _].
  rewrite Hrow. reflexivity.
Defined.

(** C3 as stated fails: the engine raises on a hit that is not an object,
    and the status of the row is "error", not "processing_error". *)
Lemma process_single_row_status_is_error :
  fst (Enrichment.process_company_request hit_is_a_string "moonshotai/kimi-k2"
         {| company_name := "Acme"; address := parse_location None |} fresh)
  = Raise (AttributeError "'str' object has no attribute 'get'")
  /\ fst (process_single_row hit_is_a_string "moonshotai/kimi-k2" "Acme" None fresh)
     = Ret {| SimpleDomainResponse.primary_domain := None;
              SimpleDomainResponse.confidence_score := 0%float;
              SimpleDomainResponse.verification_status := "error";
              SimpleDomainResponse.processing_time_ms := 0%Z |}
  /\ "error" <> "processing_error".
Proof. repeat apply conj; try (vm_compute; reflexivity). discriminate. Qed.

End RowFacts.

(** ** The endpoint of the search client *)

Module SearchFacts.
Import Py Models Env SearXNG Samples.

(** When the primary endpoint answers, [search] returns its hits and the
    endpoint of the client is the one it was. *)
Lemma search_primary_answers (w : World) query limit (self self' : App) v :
  _perform_search w query limit self = (Ret v, self') ->
  search w query limit self = (Ret v, self') /\ base_url self' = base_url self.
Proof.
  intros H. split.
  - unfold search, try_except. rewrite H. reflexivity.
  - revert H. unfold _perform_search, bind, get, request, lift, raise.
    simpl. destruct (http_get w _ _ query) as [r|e]; [|discriminate].
    destruct (status_code r =? 200)%Z; [|discriminate].
    destruct (json r) as [d|e]; [|discriminate].
    destruct (get_method d "results" (PList [])) as [x|e]; [|discriminate].
    destruct (slice_to limit x); [|discriminate].
    intros [= _ <-]. reflexivity.
Qed.

Lemma _perform_search_keeps_endpoint (w : World) query limit :
  keeps (fun a b => base_url b = base_url a) (_perform_search w query limit).
Proof.
  intros self. unfold _perform_search, bind, get, request, lift, raise. simpl.
  destruct (http_get w _ _ query) as [r|e]; [|reflexivity].
  destruct (status_code r =? 200)%Z; [|reflexivity].
  destruct (json r) as [d|e]; [|reflexivity].
  destruct (get_method d "results" (PList [])) as [x|e]; reflexivity.
Qed.

(** When the primary endpoint fails and the first fallback answers, the
    endpoint of the client is restored. *)
Lemma search_first_fallback_answers (w : World) query limit
    (self s1 s2 : App) e v :
  _perform_search w query limit self = (Raise e, s1) ->
  _perform_search w query limit (set_base_url "https://searx.org" s1) = (Ret v, s2) ->
  fst (search w query limit self) = Ret v
  /\ base_url (snd (search w query limit self)) = base_url self.
Proof.
  intros H1 H2.
  pose proof (_perform_search_keeps_endpoint w query limit self) as Hk.
  rewrite H1 in Hk. simpl in Hk.
  unfold search, try_except. rewrite H1. simpl.
  unfold try_except, bind, get, modify. simpl. rewrite H2. simpl.
  split; [reflexivity | exact Hk].
Qed.

(** C4 at two failing inputs.  The client starts with the primary endpoint
    "https://searx.be".  When no endpoint answers, [search] returns the
    empty list and leaves the last fallback, "https://searx.space", as the
    endpoint of the client.  When only the last fallback answers, [search]
    returns its hits and leaves the first fallback, "https://searx.org", as
    the endpoint.  In neither run is the primary endpoint restored. *)
Lemma search_leaves_fallback_endpoint :
  base_url fresh = "https://searx.be"
  /\ fst (search offline "acme" 10 fresh) = Ret (PList [])
  /\ base_url (snd (search offline "acme" 10 fresh)) = "https://searx.space"
  /\ fst (search only_last_fallback "acme" 10 fresh) = Ret (PList [acme_hit])
  /\ base_url (snd (search only_last_fallback "acme" 10 fresh))
     = "https://searx.org".
Proof. repeat apply conj; vm_compute; reflexivity. Qed.

End SearchFacts.

(** ** Progress of a job *)

Module ProgressFacts.
Import Py Models Env Jobs Samples KeepFacts.

Section Rows.
Context (w : World) (ai_model : string).
Context (job_id : string) (df : DataFrame) (cc lc : option string) (results : nat).

(** What one turn of the loop does to the job and to the local list. *)
Definition counted (aliases : bool) (self self' : App) : Prop :=
  forall job, jobs self !! job_id = Some job ->
  exists job',
    jobs self' !! job_id = Some job'
    /\ Job.progress job' = (Job.progress job + 1)%Z
    /\ Job.total job' = Job.total job
    /\ Job.results job' = (if aliases then results else Job.results job)
    /\ length (heap self') = length (heap self)
    /\ (results < length (heap self) ->
        length (deref self' results) = S (length (deref self results)))
    /\ (forall l, l <> results -> deref self' l = deref self l).

(** The end of a turn: the changes to the job and to the heap are read off
    the store [s1] the turn has reached, which holds the jobs of [self]. *)
Ltac turn_end Hsame Hjob :=
  destruct Hsame as (Hj & Hc & Hh);
  unfold bind, append, update_job, modify; simpl;
  rewrite !lookup_alter_eq, Hj, Hjob; simpl;
  eexists; split; [reflexivity|]; simpl;
  repeat apply conj; try reflexivity;
  [ rewrite length_alter, Hh; reflexivity
  | intros Hl; unfold deref; simpl; rewrite list_lookup_alter_eq, Hh;
    match goal with
    | |- context [heap ?s !! ?l] =>
        destruct (heap s !! l) as [rs|] eqn:E;
        [ simpl; rewrite length_app; simpl; lia
        | apply lookup_ge_None in E; lia ]
    end
  | intros l Hl; unfold deref; simpl;
    rewrite list_lookup_alter_ne, Hh by congruence; reflexivity ].

Lemma blank_turn self s1 :
  same_jobs self s1 ->
  counted false self
    (snd ((append results (placeholder "empty_input") >>
           update_job job_id incr_progress)%py s1)).
Proof. intros Hsame job Hjob. turn_end Hsame Hjob. Qed.

Lemma full_turn r self s1 :
  same_jobs self s1 ->
  counted true self
    (snd ((append results r >> update_job job_id incr_progress >>
           update_job job_id (set_results results))%py s1)).
Proof. intros Hsame job Hjob. turn_end Hsame Hjob. Qed.

Lemma failed_turn msg self s1 :
  same_jobs self s1 ->
  counted true self
    (snd ((update_job job_id (add_error msg) >>
           append results (placeholder "processing_error") >>
           update_job job_id incr_progress >>
           update_job job_id (set_results results))%py s1)).
Proof. intros Hsame job Hjob. turn_end Hsame Hjob. Qed.

(** The cell of the company name is empty or blank. *)
Definition blank_cell (index : nat) : bool :=
  match CSV.row_get df index cc with
  | Ret v => isna v || negb (PyStr.truthy (PyStr.strip (CSV.cell_str w v)))
  | Raise _ => false
  end.

Lemma process_row_turn index self :
  exists self',
    process_row w ai_model job_id df cc lc results index self = (Ret tt, self')
    /\ counted (negb (blank_cell index)) self self'.
Proof.
  unfold process_row, blank_cell.
  unfold try_except at 1. unfold bind at 1. unfold lift at 1.
  destruct (CSV.row_get df index cc) as [v|e].
  - destruct (isna v || negb (PyStr.truthy (PyStr.strip (CSV.cell_str w v)))) eqn:Hb.
    + eexists. split; [reflexivity|]. apply blank_turn. apply same_jobs_refl.
    + unfold bind at 1.
      destruct (CSV.opt_truthy lc).
      * unfold lift at 1.
        destruct (CSV.prepare_location_string w df index (default "" lc)) as [loc|e].
        -- unfold bind at 1.
           pose proof (process_single_row_same_jobs w ai_model
                         (PyStr.strip (CSV.cell_str w v)) loc self) as Hs.
           destruct (CSV.process_single_row w ai_model _ loc self) as [[r|e] s1];
             simpl in Hs.
           ++ eexists. split; [reflexivity|]. apply full_turn. exact Hs.
           ++ eexists. split; [reflexivity|]. apply failed_turn. exact Hs.
        -- eexists. split; [reflexivity|]. apply failed_turn. apply same_jobs_refl.
      * unfold ret at 1. unfold bind at 1.
        pose proof (process_single_row_same_jobs w ai_model
                      (PyStr.strip (CSV.cell_str w v)) None self) as Hs.
        destruct (CSV.process_single_row w ai_model _ None self) as [[r|e] s1];
          simpl in Hs.
        ++ eexists. split; [reflexivity|]. apply full_turn. exact Hs.
        ++ eexists. split; [reflexivity|]. apply failed_turn. exact Hs.
  - eexists. split; [reflexivity|]. apply failed_turn. apply same_jobs_refl.
Qed.

(** Every turn of the loop counts: after the rows [l] the progress has
    grown by their number and so has the local list, and the list of the
    job is the local list unless every row so far was blank. *)
Lemma rows_counted (l : list nat) : forall self job,
  jobs self !! job_id = Some job ->
  results < length (heap self) ->
  exists us self' job',
    for_each (process_row w ai_model job_id df cc lc results) l self = (Ret us, self')
    /\ jobs self' !! job_id = Some job'
    /\ Job.progress job' = (Job.progress job + Z.of_nat (length l))%Z
    /\ Job.total job' = Job.total job
    /\ length (heap self') = length (heap self)
    /\ length (deref self' results) = length (deref self results) + length l
    /\ (forall r, r <> results -> deref self' r = deref self r)
    /\ (Job.results job' = results
        \/ Job.results job' = Job.results job /\ forallb blank_cell l = true)
    /\ (Job.results job = results -> Job.results job' = results).
Proof.
  induction l as [|index l IH]; intros self job Hjob Hres.
  - exists [], self, job. simpl. repeat apply conj; auto; lia.
  - destruct (process_row_turn index self) as (s1 & Hrun & Hturn).
    destruct (Hturn job Hjob) as (j1 & Hj1 & Hp1 & Ht1 & Hr1 & Hh1 & Hd1 & Ho1).
    assert (Hres1 : results < length (heap s1)) by lia.
    destruct (IH s1 j1 Hj1 Hres1)
      as (us & s2 & j2 & Hrun2 & Hj2 & Hp2 & Ht2 & Hh2 & Hd2 & Ho2 & Hr2 & Hk2).
    exists (tt :: us), s2, j2.
    simpl for_each. unfold bind at 1. rewrite Hrun.
    unfold bind at 1. rewrite Hrun2. unfold ret.
    split; [reflexivity|]. split; [exact Hj2|].
    split; [rewrite Hp2, Hp1; simpl length; lia|].
    split; [congruence|]. split; [congruence|].
    split; [rewrite Hd2, (Hd1 Hres); simpl length; lia|].
    split; [intros r Hr; rewrite (Ho2 r Hr); apply Ho1; exact Hr|].
    split.
    + destruct Hr2 as [Hr2 | [Hr2 Hb2]]; [left; exact Hr2|].
      simpl forallb. destruct (blank_cell index); simpl in Hr1.
      * right. split; [congruence | exact Hb2].
      * left. congruence.
    + intros Halias. apply Hk2. rewrite Hr1, Halias.
      destruct (negb (blank_cell index)); reflexivity.
Qed.

End Rows.

Section Snapshots.
Context (w : World) (ai_model : string).

(** A snapshot when the first [k] rows have been handled: the progress has
    grown by [k] and the total is the same; the list of the job has [k]
    results, unless all of these rows had a blank company name, in which
    case it is still the list the job had before. *)
Lemma snapshot_after_rows (job_id : string) (job : Job.t) (self : App) (k : nat) :
  jobs self !! job_id = Some job ->
  Job.results job < length (heap self) ->
  let self' := snd (process_rows w ai_model job_id job k self) in
  exists rs,
    snapshot job_id self'
    = Some ((Job.progress job + Z.of_nat k)%Z, Job.total job, rs)
    /\ (length rs = k
        \/ rs = deref self (Job.results job)
           /\ forallb (blank_cell w (Job.dataframe job) (fst (Job.detected_columns job)))
                (seq 0 k) = true).
Proof.
  intros Hjob Hold self'. subst self'.
  unfold process_rows. unfold bind at 1. unfold update_job at 1. unfold modify at 1.
  set (s0 := set_jobs (alter (set_status PROCESSING) job_id (jobs self)) self).
  unfold bind at 1. unfold new_list at 1.
  set (s1 := set_heap (heap s0 ++ [[]]) s0).
  assert (Hj1 : jobs s1 !! job_id = Some (set_status PROCESSING job)).
  { subst s1 s0. simpl. rewrite lookup_alter_eq, Hjob. reflexivity. }
  assert (Hl1 : length (heap s0) < length (heap s1)).
  { subst s1. simpl. rewrite length_app. simpl. lia. }
  destruct (rows_counted w ai_model job_id (Job.dataframe job)
              (fst (Job.detected_columns job)) (snd (Job.detected_columns job))
              (length (heap s0)) (seq 0 k) s1 _ Hj1 Hl1)
    as (us & s2 & j2 & Hrun & Hj2 & Hp2 & Ht2 & Hh2 & Hd2 & Ho2 & Hr2 & _).
  unfold bind at 1. rewrite Hrun. simpl.
  unfold snapshot. rewrite Hj2. rewrite Hp2, Ht2. simpl.
  rewrite length_seq. eexists. split; [reflexivity|].
  destruct Hr2 as [Hr2 | [Hr2 Hb2]].
  - left. rewrite Hr2, Hd2, length_seq.
    unfold deref. subst s1. simpl.
    rewrite lookup_app_r by lia. rewrite Nat.sub_diag. simpl. lia.
  - right. split; [|exact Hb2]. rewrite Hr2. simpl in *.
    rewrite Ho2 by (subst s0; simpl; lia).
    unfold deref. subst s1 s0. simpl.
    rewrite lookup_app_l by lia. reflexivity.
Qed.

End Snapshots.

(** C2 at two failing inputs (the job runs with no server answering).
    For the table of two rows whose first company cell is empty: the job
    starts with progress 0 and an empty list; when the first row has been
    handled the progress is 1 while the list of the job still has no
    result; only when the second row has been handled does the list hold
    two results.  For the table whose only company cell is a blank: the job
    ends completed with progress 1 and total 1 while its list holds no
    result. *)
Lemma blank_row_leaves_results_behind :
  CSV.validate_csv (reads leading_blank) leading_blank_file
  = (true, "Valid CSV with 2 rows detected", Some leading_blank)
  /\ snapshot "job-1" (submitted leading_blank) = Some (0%Z, 2%Z, [])
  /\ snapshot "job-1" (during leading_blank 1) = Some (1%Z, 2%Z, [])
  /\ snapshot "job-1" (during leading_blank 2)
     = Some (2%Z, 2%Z,
             [ placeholder "empty_input"; placeholder "no_domain_found" ])
  /\ CSV.validate_csv (reads blank_name) blank_name_file
     = (true, "Valid CSV with 1 rows detected", Some blank_name)
  /\ Job.status <$> (jobs (finished blank_name) !! "job-1") = Some COMPLETED
  /\ snapshot "job-1" (finished blank_name) = Some (1%Z, 1%Z, []).
Proof. repeat apply conj; vm_compute; reflexivity. Qed.

End ProgressFacts.

(** ** Detection on the output table *)

Module RedetectFacts.
Import Py Models Env CSV Samples.

Lemma replace_column_names c cols :
  map col_name (replace_column c cols) = map col_name cols.
Proof.
  induction cols as [|c' rest IH]; simpl; [reflexivity|].
  destruct (String.eqb (col_name c') (col_name c)) eqn:E; simpl.
  - apply String.eqb_eq in E. congruence.
  - rewrite IH. reflexivity.
Qed.

Lemma find_column_none name cols :
  ~ In name (map col_name cols) -> find_column name cols = None.
Proof.
  induction cols as [|c rest IH]; simpl; [reflexivity|].
  intros H. destruct (String.eqb (col_name c) name) eqn:E.
  - apply String.eqb_eq in E. tauto.
  - apply IH. tauto.
Qed.

(** No keyword for the company name occurs in the name of a result column. *)
Lemma result_columns_hold_no_keyword pattern name :
  In pattern company_name_patterns -> In name result_columns ->
  PyStr.contains pattern (PyStr.lower name) = false.
Proof.
  intros Hp Hn.
  assert (H : forallb (fun p => forallb (fun n =>
                negb (PyStr.contains p (PyStr.lower n))) result_columns)
                company_name_patterns = true) by (vm_compute; reflexivity).
  rewrite forallb_forall in H. specialize (H pattern Hp).
  rewrite forallb_forall in H. specialize (H name Hn).
  destruct (PyStr.contains pattern (PyStr.lower name)); [discriminate|reflexivity].
Qed.



Section Assign.
Context (w : World).

(** An assignment of as many values as the table has rows goes through,
    keeps the number of rows, and changes no match of a keyword when the
    name assigned is that of a result column. *)
Lemma assign_column_fits name values df :
  length values = nrows df ->
  In name result_columns ->
  exists out, assign_column w name values df = Ret out
    /\ nrows out = nrows df
    /\ (forall p, In p company_name_patterns ->
          matches p (column_names out) = matches p (column_names df))
    /\ (~ In name (column_names df) ->
        columns out = columns df ++ [ {| col_name := name;
                                         col_dtype := infer_dtype values;
                                         col_cells := values |} ]).
Proof.
  intros Hlen Hname. unfold assign_column.
  apply Nat.eqb_eq in Hlen. rewrite Hlen.
  eexists. split; [reflexivity|]. simpl. split; [reflexivity|]. split.
  - intros p Hp. unfold column_names. simpl.
    destruct (find_column name (columns df)).
    + rewrite replace_column_names. reflexivity.
    + rewrite map_app. unfold matches. rewrite List.filter_app. simpl.
      rewrite (result_columns_hold_no_keyword p name Hp Hname).
      apply app_nil_r.
  - intros Hfree. rewrite (find_column_none _ _ Hfree). reflexivity.
Qed.

End Assign.





End RedetectFacts.

(** ** More on the search client *)

Module SearchMoreFacts.
Import Py Models Env SearXNG Samples.

(** What [search] hands back can be walked through, and holds at most
    [limit] items. *)
Definition bounded (limit : nat) (v : pyval) : Prop :=
  exists items, iterate v = Ret items /\ length items <= limit.

Lemma length_chars s : length (chars s) = String.length s.
Proof. induction s as [|c s IH]; simpl; congruence. Qed.

Lemma length_take n s : String.length (PyStr.take n s) <= n.
Proof.
  revert s. induction n as [|n IH]; intros [|c s]; simpl; try lia.
  specialize (IH s). lia.
Qed.

Lemma slice_to_bounded limit v x : slice_to limit v = Ret x -> bounded limit x.
Proof.
  destruct v; simpl; try discriminate; intros [= <-].
  - eexists. split; [reflexivity|]. simpl. rewrite length_chars. apply length_take.
  - eexists. split; [reflexivity|]. rewrite length_firstn. lia.
Qed.

Section Client.
Context (w : World).

(** One attempt: one request, to the endpoint the client has, whatever
    comes of it; the endpoint stays, and hits that are returned are at most
    [limit]. *)
Lemma _perform_search_attempt query limit self :
  let run := _perform_search w query limit self in
  trace (snd run) = EvGet (base_url self +:+ "/search") query :: trace self
  /\ base_url (snd run) = base_url self
  /\ (forall v, fst run = Ret v -> bounded limit v).
Proof.
  unfold _perform_search, bind, get, request, lift, raise. simpl.
  destruct (http_get w _ _ query) as [r|e]; [|repeat split; discriminate].
  destruct (status_code r =? 200)%Z; [|repeat split; discriminate].
  destruct (json r) as [d|e]; [|repeat split; discriminate].
  destruct (get_method d "results" (PList [])) as [x|e]; [|repeat split; discriminate].
  simpl. destruct (slice_to limit x) as [y|e] eqn:E; [|repeat split; discriminate].
  repeat split. intros v [= <-]. eapply slice_to_bounded. exact E.
Qed.

Lemma empty_bounded limit : bounded limit (PList []).
Proof. exists []. split; [reflexivity | simpl; lia]. Qed.

Theorem search_returns_at_most_limit query limit self :
  exists v, fst (search w query limit self) = Ret v /\ bounded limit v.
Proof.
  unfold search, try_except.
  destruct (_perform_search_attempt query limit self) as (_ & _ & H0).
  destruct (_perform_search w query limit self) as [[v|e] s1]; simpl in *.
  { exists v. split; [reflexivity | apply H0; reflexivity]. }
  clear H0. unfold fallback_instances, try_fallbacks.
  unfold try_except at 1. unfold bind at 1. unfold get at 1. unfold bind at 1.
  unfold modify at 1. unfold bind at 1.
  destruct (_perform_search_attempt query limit (set_base_url "https://searx.org" s1))
    as (_ & _ & H1).
  destruct (_perform_search w query limit (set_base_url "https://searx.org" s1))
    as [[v|e1] s2]; simpl in *.
  { exists v. split; [reflexivity | apply H1; reflexivity]. }
  clear H1.
  unfold try_except at 1. unfold bind at 1. unfold get at 1. unfold bind at 1.
  unfold modify at 1. unfold bind at 1.
  destruct (_perform_search_attempt query limit (set_base_url "https://searx.space" s2))
    as (_ & _ & H2).
  destruct (_perform_search w query limit (set_base_url "https://searx.space" s2))
    as [[v|e2] s3]; simpl in *.
  { exists v. split; [reflexivity | apply H2; reflexivity]. }
  exists (PList []). split; [reflexivity | apply empty_bounded].
Qed.

(** The three attempts [search] can make, each from the store the one before
    has left, with the endpoint set to the fallback. *)
Definition attempt1 query limit (self : App) :=
  _perform_search w query limit self.
Definition attempt2 query limit (self : App) :=
  _perform_search w query limit
    (set_base_url "https://searx.org" (snd (attempt1 query limit self))).
Definition attempt3 query limit (self : App) :=
  _perform_search w query limit
    (set_base_url "https://searx.space" (snd (attempt2 query limit self))).

Lemma search_unfolded query limit self :
  search w query limit self =
  match attempt1 query limit self with
  | (Ret v, s1) => (Ret v, s1)
  | (Raise _, s1) =>
      match attempt2 query limit self with
      | (Ret v, s2) => (Ret v, set_base_url (base_url s1) s2)
      | (Raise _, s2) =>
          match attempt3 query limit self with
          | (Ret v, s3) => (Ret v, set_base_url (base_url s2) s3)
          | (Raise _, s3) => (Ret (PList []), s3)
          end
      end
  end.
Proof.
  unfold attempt3, attempt2, attempt1, search, try_except.
  destruct (_perform_search w query limit self) as [[v|e] s1]; [reflexivity|].
  simpl snd. unfold fallback_instances, try_fallbacks.
  unfold try_except at 1. unfold bind at 1. unfold get at 1. unfold bind at 1.
  unfold modify at 1. unfold bind at 1.
  destruct (_perform_search w query limit (set_base_url "https://searx.org" s1))
    as [[v|e1] s2]; [reflexivity|].
  simpl snd.
  unfold try_except at 1. unfold bind at 1. unfold get at 1. unfold bind at 1.
  unfold modify at 1. unfold bind at 1.
  destruct (_perform_search w query limit (set_base_url "https://searx.space" s2))
    as [[v|e2] s3]; reflexivity.
Qed.

(** X: the requests of one [search].  They are GET requests for the same
    query, at most three: to the endpoint of the client, then to
    "https://searx.org", then to "https://searx.space", each made only
    when the one before has failed. *)
Theorem search_requests_in_order query limit self :
  let first := EvGet (base_url self +:+ "/search") query in
  let second := EvGet "https://searx.org/search" query in
  let third := EvGet "https://searx.space/search" query in
  let requests := trace (snd (search w query limit self)) in
  (forall v, fst (attempt1 query limit self) = Ret v ->
     requests = first :: trace self)
  /\ (forall e v, fst (attempt1 query limit self) = Raise e ->
        fst (attempt2 query limit self) = Ret v ->
        requests = second :: first :: trace self)
  /\ (forall e e', fst (attempt1 query limit self) = Raise e ->
        fst (attempt2 query limit self) = Raise e' ->
        requests = third :: second :: first :: trace self).
Proof.
  cbv zeta. rewrite search_unfolded.
  pose proof (_perform_search_attempt query limit self) as (T1 & _ & _).
  pose proof (_perform_search_attempt query limit
                (set_base_url "https://searx.org" (snd (attempt1 query limit self))))
    as (T2 & _ & _).
  pose proof (_perform_search_attempt query limit
                (set_base_url "https://searx.space" (snd (attempt2 query limit self))))
    as (T3 & _ & _).
  fold (attempt1 query limit self) in T1.
  fold (attempt2 query limit self) in T2.
  fold (attempt3 query limit self) in T3.
  simpl in T2, T3.
  destruct (attempt1 query limit self) as [[v1|e1] s1]; simpl in *.
  - repeat split; intros; try discriminate. exact T1.
  - destruct (attempt2 query limit self) as [[v2|e2] s2]; simpl in *.
    + repeat split; intros; try discriminate. rewrite T2, T1. reflexivity.
    + repeat split; intros; try discriminate.
      destruct (attempt3 query limit self) as [[v3|e3] s3]; simpl in *;
        rewrite T3, T2, T1; reflexivity.
Qed.

(** X: the endpoint after [search]. *)
Theorem search_endpoint_afterwards query limit self :
  let run := search w query limit self in
  (forall v, fst (attempt1 query limit self) = Ret v ->
     fst run = Ret v /\ base_url (snd run) = base_url self)
  /\ (forall e v, fst (attempt1 query limit self) = Raise e ->
        fst (attempt2 query limit self) = Ret v ->
        fst run = Ret v /\ base_url (snd run) = base_url self)
  /\ (forall e e' v, fst (attempt1 query limit self) = Raise e ->
        fst (attempt2 query limit self) = Raise e' ->
        fst (attempt3 query limit self) = Ret v ->
        fst run = Ret v /\ base_url (snd run) = "https://searx.org")
  /\ (forall e e' e'', fst (attempt1 query limit self) = Raise e ->
        fst (attempt2 query limit self) = Raise e' ->
        fst (attempt3 query limit self) = Raise e'' ->
        fst run = Ret (PList []) /\ base_url (snd run) = "https://searx.space").
Proof.
  cbv zeta. rewrite search_unfolded.
  pose proof (_perform_search_attempt query limit self) as (_ & B1 & _).
  pose proof (_perform_search_attempt query limit
                (set_base_url "https://searx.org" (snd (attempt1 query limit self))))
    as (_ & B2 & _).
  pose proof (_perform_search_attempt query limit
                (set_base_url "https://searx.space" (snd (attempt2 query limit self))))
    as (_ & B3 & _).
  fold (attempt1 query limit self) in B1.
  fold (attempt2 query limit self) in B2.
  fold (attempt3 query limit self) in B3.
  simpl in B2, B3.
  destruct (attempt1 query limit self) as [[v1|e1] s1]; simpl in *.
  - repeat split; intros; try discriminate; congruence.
  - destruct (attempt2 query limit self) as [[v2|e2] s2]; simpl in *.
    + repeat split; intros; try discriminate; congruence.
    + destruct (attempt3 query limit self) as [[v3|e3] s3]; simpl in *;
        repeat split; intros; try discriminate; congruence.
Qed.

End Client.
End SearchMoreFacts.

(** ** Stripping and the normalised name *)

Module StripFacts.
Import PyStr.

(** [simpl] leaves [+:+] alone: this unfolds one step of it. *)
Ltac app_step := unfold String.append; fold String.append.

Lemma append_nil_r s : s +:+ "" = s.
Proof. induction s; app_step; congruence. Qed.

Lemma append_assoc a b c : (a +:+ b) +:+ c = a +:+ (b +:+ c).
Proof. induction a; app_step; congruence. Qed.

Lemma rev_onto_app s acc : rev_onto s acc = srev s +:+ acc.
Proof.
  unfold srev. revert acc. induction s as [|c s IH]; intros acc; simpl.
  - reflexivity.
  - rewrite IH. rewrite (IH (String c EmptyString)).
    rewrite append_assoc. reflexivity.
Qed.

Lemma srev_app a b : srev (a +:+ b) = srev b +:+ srev a.
Proof.
  induction a as [|c a IH]; simpl.
  - symmetry. apply append_nil_r.
  - unfold srev at 1 3. simpl. rewrite !rev_onto_app, IH.
    apply append_assoc.
Qed.

Lemma srev_involutive s : srev (srev s) = s.
Proof.
  induction s as [|c s IH]; [reflexivity|].
  unfold srev at 2. simpl. rewrite rev_onto_app, srev_app, IH. reflexivity.
Qed.

(** No whitespace at the start. *)
Definition clean_head (s : string) : Prop :=
  match s with
  | EmptyString => True
  | String c _ => is_space c = false
  end.

Lemma lstrip_suffix s : exists p, s = p +:+ lstrip s.
Proof.
  induction s as [|c s [p IH]]; simpl.
  - exists "". reflexivity.
  - destruct (is_space c).
    + exists (String c p). app_step. congruence.
    + exists "". reflexivity.
Qed.

Lemma lstrip_clean s : clean_head (lstrip s).
Proof.
  induction s as [|c s IH]; simpl; [exact I|].
  destruct (is_space c) eqn:E; [exact IH | exact E].
Qed.

Lemma lstrip_id s : clean_head s -> lstrip s = s.
Proof. destruct s as [|c s]; simpl; [reflexivity|]. intros ->. reflexivity. Qed.

Lemma rstrip_prefix s : exists q, s = rstrip s +:+ q.
Proof.
  unfold rstrip. destruct (lstrip_suffix (srev s)) as [p Hp].
  exists (srev p). rewrite <- srev_app, <- Hp. symmetry. apply srev_involutive.
Qed.

Lemma prefix_clean a b : clean_head (a +:+ b) -> clean_head a.
Proof. destruct a; [intros _; exact I|]. app_step. simpl. auto. Qed.

Lemma rstrip_clean s : clean_head s -> clean_head (rstrip s).
Proof.
  intros H. destruct (rstrip_prefix s) as [q Hq]. rewrite Hq in H.
  eapply prefix_clean. exact H.
Qed.

Lemma strip_clean s : clean_head (strip s).
Proof. unfold strip. apply rstrip_clean, lstrip_clean. Qed.

Lemma rstrip_idem s : rstrip (rstrip s) = rstrip s.
Proof.
  unfold rstrip. rewrite srev_involutive.
  rewrite (lstrip_id (lstrip (srev s))); [reflexivity | apply lstrip_clean].
Qed.

(** [strip] changes nothing the second time. *)
Lemma strip_idem s : strip (strip s) = strip s.
Proof.
  unfold strip at 1. rewrite (lstrip_id (strip s)) by apply strip_clean.
  unfold strip. apply rstrip_idem.
Qed.

Lemma take_prefix n s : exists q, s = take n s +:+ q.
Proof.
  revert s. induction n as [|n IH]; intros s.
  - exists s. destruct s; reflexivity.
  - destruct s as [|c s]; [exists ""; reflexivity|].
    destruct (IH s) as [q Hq]. exists q. simpl take. app_step. congruence.
Qed.

End StripFacts.

Module NormalizeFacts.
Import PyStr StripFacts Enrichment.

(** One turn of the loop over the suffixes. *)
Definition drop_suffix (normalized suffix : string) : string :=
  if endswith (" " +:+ suffix) normalized
  then drop_last (String.length suffix + 1) normalized
  else normalized.

Lemma drop_suffix_prefix x suffix : exists q, x = drop_suffix x suffix +:+ q.
Proof.
  unfold drop_suffix. destruct (endswith _ x).
  - apply take_prefix.
  - exists "". symmetry. apply append_nil_r.
Qed.

Lemma fold_prefix (l : list string) x :
  exists q, x = fold_left drop_suffix l x +:+ q.
Proof.
  revert x. induction l as [|suffix l IH]; intros x; simpl.
  - exists "". symmetry. apply append_nil_r.
  - destruct (IH (drop_suffix x suffix)) as [q Hq].
    destruct (drop_suffix_prefix x suffix) as [q' Hq'].
    exists (q +:+ q'). rewrite <- append_assoc, <- Hq. exact Hq'.
Qed.

(** X: normalisation only takes from the end.  The normalised name is a
    prefix of the stripped name, and has itself no whitespace at either
    end. *)
Theorem normalize_company_name_prefix (name : string) :
  (exists rest, strip name = normalize_company_name name +:+ rest)
  /\ strip (normalize_company_name name) = normalize_company_name name.
Proof.
  unfold normalize_company_name.
  change (fun normalized suffix : string =>
            if endswith (" " +:+ suffix) normalized
            then drop_last (String.length suffix + 1) normalized
            else normalized) with drop_suffix.
  set (y := fold_left drop_suffix suffixes (strip name)).
  destruct (fold_prefix suffixes (strip name)) as [q Hq]. fold y in Hq.
  assert (Hy : clean_head y).
  { apply (prefix_clean y q). rewrite <- Hq. apply strip_clean. }
  split.
  - unfold strip at 2. rewrite (lstrip_id y Hy).
    destruct (rstrip_prefix y) as [q' Hq'].
    exists (q' +:+ q). rewrite <- append_assoc, <- Hq'. exact Hq.
  - apply strip_idem.
Qed.

(** X: a name that ends in none of the suffixes is only stripped. *)
Theorem normalize_company_name_plain (name : string) :
  Forall (fun suffix => endswith (" " +:+ suffix) (strip name) = false) suffixes ->
  normalize_company_name name = strip name.
Proof.
  intros H. unfold normalize_company_name.
  change (fun normalized suffix : string =>
            if endswith (" " +:+ suffix) normalized
            then drop_last (String.length suffix + 1) normalized
            else normalized) with drop_suffix.
  assert (Hfold : forall l, Forall (fun suffix =>
             endswith (" " +:+ suffix) (strip name) = false) l ->
             fold_left drop_suffix l (strip name) = strip name).
  { induction l as [|s l IH]; intros HF; [reflexivity|].
    inversion HF as [|? ? H1 H2]; subst. simpl.
    unfold drop_suffix at 2. rewrite H1. apply IH. exact H2. }
  rewrite (Hfold suffixes H). apply strip_idem.
Qed.

End NormalizeFacts.

(** ** The queries of a request *)

Module QueryFacts.
Import PyStr StripFacts Py Models Env Enrichment Samples.

Lemma lstrip_keeps_char a c b :
  is_space c = false -> lstrip (a +:+ String c b) <> "".
Proof.
  intros Hc. induction a as [|d a IH]; app_step; simpl.
  - rewrite Hc. discriminate.
  - destruct (is_space d); [exact IH | discriminate].
Qed.

Lemma srev_nonempty s : s <> "" -> srev s <> "".
Proof.
  intros Hs H. apply Hs. rewrite <- (srev_involutive s), H. reflexivity.
Qed.

(** A string that starts with a character that is no whitespace is not
    blank. *)
Lemma strip_keeps_head c s : is_space c = false -> strip (String c s) <> "".
Proof.
  intros Hc. unfold strip. simpl lstrip. rewrite Hc.
  unfold rstrip. apply srev_nonempty.
  unfold srev at 1. simpl rev_onto. rewrite rev_onto_app.
  apply lstrip_keeps_char. exact Hc.
Qed.

Lemma dedupe_in seen xs x :
  In x (dedupe seen xs) <-> In x xs /\ ~ In x seen.
Proof.
  revert seen. induction xs as [|y xs IH]; intros seen; simpl; [tauto|].
  destruct (existsb (String.eqb y) seen) eqn:E.
  - apply existsb_exists in E. destruct E as (z & Hz & Hyz).
    apply String.eqb_eq in Hyz. subst z. rewrite IH.
    split; [tauto|]. intros [[-> | H] Hn]; [contradiction | tauto].
  - assert (Hy : ~ In y seen).
    { intros Hin. assert (existsb (String.eqb y) seen = true).
      { apply existsb_exists. exists y. split; [exact Hin | apply String.eqb_refl]. }
      congruence. }
    simpl. rewrite IH. simpl. split.
    + intros [-> | [H1 H2]]; [tauto|]. split; [tauto|]. tauto.
    + intros [[-> | H1] H2]; [tauto|].
      destruct (string_dec y x) as [-> | Hne]; [tauto|]. right. split; [exact H1|].
      intros [? | ?]; tauto.
Qed.

Lemma dedupe_nodup seen xs : List.NoDup (dedupe seen xs).
Proof.
  revert seen. induction xs as [|y xs IH]; intros seen; simpl; [constructor|].
  destruct (existsb (String.eqb y) seen); [apply IH|].
  constructor; [|apply IH]. rewrite dedupe_in. simpl. tauto.
Qed.

(** X: the queries of a request, when [list(set(...))] lists each element
    of the set once.  The query with the name as it was given is always
    among them, no query is blank, and there are at most six. *)
Theorem generate_search_queries_keeps_raw_name (w : World) (company_name : string)
    (address : CompanyAddress) :
  (forall xs x, In x (set_order w xs) <-> In x xs) ->
  (forall xs, List.NoDup (set_order w xs)) ->
  let queries := generate_search_queries w company_name address in
  In (dquote +:+ company_name +:+ dquote +:+ " official domain") queries
  /\ Forall (fun q => PyStr.truthy (strip q) = true) queries
  /\ 1 <= length queries <= 6.
Proof.
  intros Hset Hnodup queries. subst queries. unfold generate_search_queries.
  cbv zeta.
  set (all := [_; _; _; _; _; _]).
  assert (Hraw : In (dquote +:+ company_name +:+ dquote +:+ " official domain")
                   (set_order w (List.filter (fun q => PyStr.truthy (strip q)) all))).
  { apply Hset. apply filter_In. split.
    - subst all. simpl. tauto.
    - apply PyStrFacts.truthy_nonempty. unfold dquote. app_step.
      apply strip_keeps_head. reflexivity. }
  split; [exact Hraw|]. split.
  - apply List.Forall_forall. intros q Hq. apply (proj1 (Hset _ _)) in Hq.
    apply filter_In in Hq. tauto.
  - split.
    + destruct (set_order w _); [destruct Hraw | simpl; lia].
    + change 6 with (length all).
      apply List.NoDup_incl_length; [apply Hnodup|].
      intros q Hq. apply (proj1 (Hset _ _)) in Hq. apply filter_In in Hq. tauto.
Qed.

Lemma generate_search_queries_keeps_raw_name_witness :
  In (dquote +:+ "Acme Corp" +:+ dquote +:+ " official domain")
     (generate_search_queries offline "Acme Corp" (address acme_request))
  /\ length (generate_search_queries offline "Acme Corp" (address acme_request)) <= 6.
Proof.
  destruct (generate_search_queries_keeps_raw_name offline "Acme Corp"
              (address acme_request)) as (H1 & _ & _ & H2).
  - intros xs x. simpl. rewrite dedupe_in. simpl. tauto.
  - intros xs. apply dedupe_nodup.
  - split; [exact H1 | exact H2].
Defined.

End QueryFacts.

(** ** The prompt and the response *)

Module PromptFacts.
Import Py Models Env Enrichment Samples.

Lemma traverse_length {A B} (f : A -> outcome B) l ys :
  traverse f l = Ret ys -> length ys = length l.
Proof.
  revert ys. induction l as [|x l IH]; intros ys; simpl.
  - intros [= <-]. reflexivity.
  - destruct (f x) as [y|e]; simpl; [|discriminate].
    destruct (traverse f l) as [ys'|e]; simpl; [|discriminate].
    intros [= <-]. simpl. rewrite (IH ys' eq_refl). reflexivity.
Qed.

Lemma traverse_in {A B} (f : A -> outcome B) l ys y :
  traverse f l = Ret ys -> In y ys -> exists x, In x l /\ f x = Ret y.
Proof.
  revert ys. induction l as [|x l IH]; intros ys; simpl.
  - intros [= <-] [].
  - destruct (f x) as [y0|e] eqn:E; simpl; [|discriminate].
    destruct (traverse f l) as [ys'|e]; simpl; [|discriminate].
    intros [= <-] [<- | Hin].
    + exists x. auto.
    + destruct (IH ys' eq_refl Hin) as (x' & Hx' & Hf). exists x'. auto.
Qed.

Lemma traverse_raises {A B} (f : A -> outcome B) l x e :
  In x l -> f x = Raise e -> exists e', traverse f l = Raise e'.
Proof.
  induction l as [|x0 l IH]; simpl; [intros []|].
  intros [-> | Hin] Hx.
  - rewrite Hx. simpl. eauto.
  - destruct (f x0) as [y|e0]; simpl; [|eauto].
    destruct (IH Hin Hx) as [e' ->]. simpl. eauto.
Qed.

(** A snippet of at most [n] characters, or a list of at most [n] items. *)
Definition at_most (n : nat) (v : pyval) : Prop :=
  (exists s, v = PStr s /\ String.length s <= n)
  \/ (exists l, v = PList l /\ length l <= n).

Lemma slice_to_at_most n v x : slice_to n v = Ret x -> at_most n x.
Proof.
  destruct v; simpl; try discriminate; intros [= <-].
  - left. eexists. split; [reflexivity | apply SearchMoreFacts.length_take].
  - right. eexists. split; [reflexivity|]. rewrite length_firstn. lia.
Qed.

Lemma format_result_content hit title url content :
  format_result hit = Ret (title, url, content) -> at_most 400 content.
Proof.
  unfold format_result.
  destruct (get_method hit "title" (PStr "")) as [t|e]; simpl; [|discriminate].
  destruct (get_method hit "url" (PStr "")) as [u|e]; simpl; [|discriminate].
  destruct (get_method hit "content" (PStr "")) as [c|e]; simpl; [|discriminate].
  destruct (slice_to 400 c) as [c'|e] eqn:E; simpl; [|discriminate].
  intros [= _ _ <-]. eapply slice_to_at_most. exact E.
Qed.

(** X: what the adjudicator is sent.  When the prompt can be built from the
    hits, exactly one request goes out; it carries the first 25 hits at
    most, and the content of each is cut to 400 characters at most. *)
Theorem prompt_is_bounded (w : World) (company_name : string)
    (address : CompanyAddress) (search_results : list pyval) (self : App)
    (formatted : list (pyval * pyval * pyval)) :
  search_results <> [] ->
  traverse format_result (firstn 25 search_results) = Ret formatted ->
  trace (snd (analyze_results_with_ai w company_name address search_results self))
  = EvPost (build_prompt company_name address formatted) :: trace self
  /\ prompt_results (build_prompt company_name address formatted) = formatted
  /\ length formatted = Nat.min 25 (length search_results)
  /\ (forall title url content, In (title, url, content) formatted ->
        at_most 400 content).
Proof.
  intros Hne Hfmt. split; [|split; [reflexivity|split]].
  - unfold analyze_results_with_ai.
    destruct search_results as [|hit rest]; [congruence|].
    rewrite Hfmt. unfold bind at 1. unfold lift at 1.
    unfold try_except, bind, request.
    destruct (http_post w _ _) as [r|e]; [|reflexivity].
    destruct (status_code r =? 200)%Z; [|reflexivity].
    unfold lift at 1. destruct (message_content r) as [content|e]; [|reflexivity].
    unfold try_except_class, lift.
    destruct (loads w content) as [v|e]; [reflexivity|].
    destruct (is_JSONDecodeError e); reflexivity.
  - rewrite (traverse_length _ _ _ Hfmt). apply length_firstn.
  - intros title url content Hin.
    destruct (traverse_in _ _ _ _ Hfmt Hin) as (hit & _ & Hhit).
    eapply format_result_content. exact Hhit.
Qed.

Lemma prompt_is_bounded_witness :
  trace (snd (analyze_results_with_ai adjudicator_unavailable "Acme Corp"
                (address acme_request) [acme_hit] fresh))
  = [EvPost (build_prompt "Acme Corp" (address acme_request)
               [(PStr "Acme Corporation", PStr "https://acme.example/",
                 PStr "Acme makes everything.")])].
Proof.
  assert (Hne : [acme_hit] <> []) by discriminate.
  destruct (prompt_is_bounded adjudicator_unavailable "Acme Corp"
              (address acme_request) [acme_hit] fresh
              [(PStr "Acme Corporation", PStr "https://acme.example/",
                PStr "Acme makes everything.")] Hne eq_refl) as (H & _).
  exact H.
Defined.

Definition is_dict (v : pyval) : bool :=
  match v with PDict _ => true | _ => false end.

(** X: a hit that is no object.  When one of the first 25 hits is not a
    dictionary, the analysis raises before any request is made: the store
    is left as it was. *)
Theorem malformed_hit_raises (w : World) (company_name : string)
    (address : CompanyAddress) (search_results : list pyval) (self : App)
    (hit : pyval) :
  In hit (firstn 25 search_results) -> is_dict hit = false ->
  exists e,
    analyze_results_with_ai w company_name address search_results self
    = (Raise e, self).
Proof.
  intros Hin Hdict.
  assert (Hraise : exists e, format_result hit = Raise e).
  { unfold format_result. destruct hit; try discriminate; simpl; eauto. }
  destruct Hraise as [e He].
  destruct (traverse_raises format_result _ hit e Hin He) as [e' He'].
  exists e'. unfold analyze_results_with_ai.
  destruct search_results as [|h rest]; [destruct Hin|].
  rewrite He'. reflexivity.
Qed.

Lemma malformed_hit_raises_witness :
  exists e,
    analyze_results_with_ai hit_is_a_string "Acme" (address acme_request)
      [PStr "Acme"] fresh
    = (Raise e, fresh).
Proof.
  apply (malformed_hit_raises hit_is_a_string "Acme" (address acme_request)
           [PStr "Acme"] fresh (PStr "Acme")).
  - left. reflexivity.
  - reflexivity.
Defined.

End PromptFacts.

Module ResponseFacts.
Import Py Models Env Enrichment Samples.

Definition verification_statuses : list string :=
  ["verified"; "http_only"; "inaccessible"; "unreachable"; "no_domain_found"].

Lemma verify_domain_returns (w : World) domain self :
  exists status self',
    verify_domain w domain self = (Ret status, self')
    /\ In status ["verified"; "http_only"; "inaccessible"; "unreachable"].
Proof.
  unfold verify_domain, try_except, bind, request, ret. simpl.
  destruct (http_head w _ _) as [r|e].
  - destruct (status_code r <? 400)%Z; eexists; eexists; split;
      try reflexivity; simpl; tauto.
  - simpl. destruct (http_head w _ _) as [r|e']; simpl.
    + destruct (status_code r <? 400)%Z; eexists; eexists; split;
        try reflexivity; simpl; tauto.
    + eexists; eexists; split; try reflexivity; simpl; tauto.
Qed.

(** The status the request settles on, before the response is made. *)
Lemma request_settles (w : World) (ai_model : string) (request : CompanyRequest)
    (self self' : App) (response : DomainResponse.t) :
  process_company_request w ai_model request self = (Ret response, self') ->
  In (DomainResponse.verification_status response) verification_statuses
  /\ domain_status (DomainResponse.metadata response)
     = DomainResponse.verification_status response
  /\ DomainResponse.search_queries_used response
     = generate_search_queries w (company_name request) (address request)
  /\ company_name_normalized (DomainResponse.metadata response)
     = normalize_company_name (company_name request)
  /\ ai_model_used (DomainResponse.metadata response) = ai_model
  /\ DomainResponse.processing_time_ms response
     = elapsed_ms w (length (trace self)) (length (trace self')).
Proof.
  unfold process_company_request, bind, get, lift.
  destruct (collect_results w _ [] self) as [[hits|e] s1]; [|discriminate].
  destruct (analyze_results_with_ai w _ _ hits s1) as [[analysis|e] s2];
    [|discriminate].
  destruct (get_method analysis "primary_domain" PNone) as [found|e];
    [|discriminate].
  destruct (truthy found).
  - destruct (subscript_str analysis "primary_domain") as [domain|e];
      [|discriminate].
    destruct (verify_domain_returns w domain s2) as (status & s3 & Hv & Hin).
    rewrite Hv.
    destruct (get_method analysis "confidence_score" _) as [c|e]; [|discriminate].
    destruct (get_method analysis "alternative_domains" _) as [a|e]; [|discriminate].
    destruct (get_method analysis "reasoning" _) as [y|e]; [|discriminate].
    destruct (as_optional_str w found) as [p|e]; [|discriminate].
    destruct (as_float w c) as [c'|e]; [|discriminate].
    destruct (as_str_list w a) as [a'|e]; [|discriminate].
    unfold ret. intros [= <- <-]. simpl.
    repeat split. unfold verification_statuses. simpl in *. tauto.
  - unfold ret at 1.
    destruct (get_method analysis "confidence_score" _) as [c|e]; [|discriminate].
    destruct (get_method analysis "alternative_domains" _) as [a|e]; [|discriminate].
    destruct (get_method analysis "reasoning" _) as [y|e]; [|discriminate].
    destruct (as_optional_str w found) as [p|e]; [|discriminate].
    destruct (as_float w c) as [c'|e]; [|discriminate].
    destruct (as_str_list w a) as [a'|e]; [|discriminate].
    unfold ret. intros [= <- <-]. simpl.
    repeat split. unfold verification_statuses. simpl. tauto.
Qed.

End ResponseFacts.

(** ** The rows of a batch *)

Module RowStatusFacts.
Import Py Models Env Enrichment CSV Samples ResponseFacts.

Definition engine_statuses : list string :=
  ["verified"; "http_only"; "inaccessible"; "unreachable"; "no_domain_found";
   "error"].

Lemma process_single_row_returns (w : World) (ai_model : string)
    (company_name : string) (location : option string) (self : App) :
  exists r self',
    process_single_row w ai_model company_name location self = (Ret r, self')
    /\ In (SimpleDomainResponse.verification_status r) engine_statuses
    /\ (SimpleDomainResponse.verification_status r = "error" ->
        r = Jobs.placeholder "error").
Proof.
  unfold process_single_row, try_except, bind.
  destruct (process_company_request w ai_model _ self) as [[resp|e] s1] eqn:E.
  - destruct (request_settles w ai_model _ self s1 resp E) as (Hin & _).
    eexists. eexists. split; [reflexivity|]. simpl. split.
    + unfold verification_statuses in Hin. simpl in Hin. tauto.
    + intros Herr. rewrite Herr in Hin. simpl in Hin.
      repeat (destruct Hin as [Hin | Hin]; [discriminate|]). destruct Hin.
  - eexists. eexists. split; [reflexivity|]. simpl. split.
    + tauto.
    + reflexivity.
Qed.

End RowStatusFacts.

Module BatchFacts.
Import Py Models Env Jobs Samples KeepFacts ProgressFacts RowStatusFacts.

Definition row_statuses : list string :=
  ["verified"; "http_only"; "inaccessible"; "unreachable"; "no_domain_found";
   "error"; "empty_input"; "processing_error"].

(** The fields of a job the loop never writes. *)
Definition same_setup (job job' : Job.t) : Prop :=
  Job.id job' = Job.id job
  /\ Job.status job' = Job.status job
  /\ Job.total job' = Job.total job
  /\ Job.created_at job' = Job.created_at job
  /\ Job.completed_at job' = Job.completed_at job
  /\ Job.dataframe job' = Job.dataframe job
  /\ Job.detected_columns job' = Job.detected_columns job.

Section Rows.
Context (w : World) (ai_model : string).
Context (job_id : string) (df : DataFrame) (cc lc : option string) (results : nat).

(** One turn of the loop seen from outside: the result [r] goes to the end
    of the local list, the progress grows by one, the messages [errs] go to
    the end of the errors, and nothing else changes. *)
Definition turned (self self' : App) (job job' : Job.t)
    (r : SimpleDomainResponse.t) (errs : list string) : Prop :=
  jobs self' !! job_id = Some job'
  /\ (forall other, other <> job_id -> jobs self' !! other = jobs self !! other)
  /\ results_cache self' = results_cache self
  /\ heap self' = alter (fun rs => rs ++ [r]) results (heap self)
  /\ Job.progress job' = (Job.progress job + 1)%Z
  /\ Job.errors job' = Job.errors job ++ errs
  /\ same_setup job job'.

Ltac end_of_turn Hsame Hjob :=
  destruct Hsame as (Hj & Hc & Hh);
  unfold bind, append, update_job, modify; simpl;
  repeat split; simpl;
  first
    [ reflexivity
    | exact Hc
    | rewrite !lookup_alter_eq, Hj, Hjob; reflexivity
    | intros other Hother; rewrite !lookup_alter_ne, Hj by congruence; reflexivity
    | rewrite Hh; reflexivity
    | rewrite app_nil_r; reflexivity ].

Lemma blank_end self s1 job :
  same_jobs self s1 -> jobs self !! job_id = Some job ->
  turned self
    (snd ((append results (placeholder "empty_input") >>
           update_job job_id incr_progress)%py s1))
    job (incr_progress job) (placeholder "empty_input") [].
Proof. intros Hsame Hjob. end_of_turn Hsame Hjob. Qed.

Lemma full_end r self s1 job :
  same_jobs self s1 -> jobs self !! job_id = Some job ->
  turned self
    (snd ((append results r >> update_job job_id incr_progress >>
           update_job job_id (set_results results))%py s1))
    job (set_results results (incr_progress job)) r [].
Proof. intros Hsame Hjob. end_of_turn Hsame Hjob. Qed.

Lemma failed_end msg self s1 job :
  same_jobs self s1 -> jobs self !! job_id = Some job ->
  turned self
    (snd ((update_job job_id (add_error msg) >>
           append results (placeholder "processing_error") >>
           update_job job_id incr_progress >>
           update_job job_id (set_results results))%py s1))
    job (set_results results (incr_progress (add_error msg job)))
    (placeholder "processing_error") [msg].
Proof. intros Hsame Hjob. end_of_turn Hsame Hjob. Qed.

(** What a turn may add for the row at [index]. *)
Definition row_outcome (index : nat) (r : SimpleDomainResponse.t)
    (errs : list string) : Prop :=
  if blank_cell w df cc index
  then r = placeholder "empty_input" /\ errs = []
  else (errs = [] /\ In (SimpleDomainResponse.verification_status r) engine_statuses)
       \/ (length errs = 1 /\ r = placeholder "processing_error").

Lemma process_row_turned index self job :
  jobs self !! job_id = Some job ->
  exists self' job' r errs,
    process_row w ai_model job_id df cc lc results index self = (Ret tt, self')
    /\ turned self self' job job' r errs
    /\ row_outcome index r errs.
Proof.
  intros Hjob. unfold process_row, row_outcome, blank_cell.
  unfold try_except at 1. unfold bind at 1. unfold lift at 1.
  destruct (CSV.row_get df index cc) as [v|e].
  - destruct (isna v || negb (PyStr.truthy (PyStr.strip (CSV.cell_str w v)))) eqn:Hb.
    + do 4 eexists. split; [reflexivity|]. split.
      * apply blank_end; [apply same_jobs_refl | exact Hjob].
      * auto.
    + unfold bind at 1.
      assert (Hrow : forall loc,
        exists self' job' r errs,
          (match
             (let* result := CSV.process_single_row w ai_model
                               (PyStr.strip (CSV.cell_str w v)) loc
              in append results result >> update_job job_id incr_progress >>
                 update_job job_id (set_results results))%py self
           with
           | (Ret a, s') => (Ret a, s')
           | (Raise e, s') =>
               (update_job job_id
                  (add_error ("Error processing row "
                              +:+ PyStr.of_Z (Z.of_nat index + 1)
                              +:+ ": " +:+ exn_str e)) >>
                append results (placeholder "processing_error") >>
                update_job job_id incr_progress >>
                update_job job_id (set_results results))%py s'
           end) = (Ret tt, self')
          /\ turned self self' job job' r errs
          /\ ((errs = [] /\ In (SimpleDomainResponse.verification_status r)
                              engine_statuses)
              \/ (length errs = 1 /\ r = placeholder "processing_error"))).
      { intros loc. unfold bind at 1.
        pose proof (process_single_row_same_jobs w ai_model
                      (PyStr.strip (CSV.cell_str w v)) loc self) as Hs.
        destruct (process_single_row_returns w ai_model
                    (PyStr.strip (CSV.cell_str w v)) loc self)
          as (r & s1 & Hr & Hin & _).
        rewrite Hr in *. simpl in Hs.
        do 4 eexists. split; [reflexivity|]. split.
        - apply full_end; [exact Hs | exact Hjob].
        - left. auto. }
      destruct (CSV.opt_truthy lc).
      * unfold lift at 1.
        destruct (CSV.prepare_location_string w df index (default "" lc)) as [loc|e].
        -- apply Hrow.
        -- do 4 eexists. split; [reflexivity|]. split.
           ++ apply failed_end; [apply same_jobs_refl | exact Hjob].
           ++ right. auto.
      * unfold ret at 1. apply Hrow.
  - do 4 eexists. split; [reflexivity|]. split.
    + apply failed_end; [apply same_jobs_refl | exact Hjob].
    + right. auto.
Qed.

(** A result in its place: the row at [index] gave [r]. *)
Definition aligned (index : nat) (r : SimpleDomainResponse.t) : Prop :=
  (blank_cell w df cc index = true -> r = placeholder "empty_input")
  /\ In (SimpleDomainResponse.verification_status r) row_statuses.

(** The rows recorded as failed. *)
Definition failures (rs : list SimpleDomainResponse.t) : nat :=
  length (List.filter
            (fun r => String.eqb (SimpleDomainResponse.verification_status r)
                        "processing_error") rs).

Lemma row_outcome_aligned index r errs :
  row_outcome index r errs ->
  aligned index r /\ length errs = failures [r].
Proof.
  unfold row_outcome, aligned, failures.
  destruct (blank_cell w df cc index).
  - intros [-> ->]. simpl. repeat split; tauto.
  - intros [[-> Hin] | [Herr ->]].
    + split; [split; [discriminate|]|].
      * unfold engine_statuses in Hin. simpl in *. tauto.
      * unfold engine_statuses in Hin. simpl in Hin. simpl.
        destruct Hin as [<- | [<- | [<- | [<- | [<- | [<- | []]]]]]]; reflexivity.
    + simpl. repeat split; try discriminate; tauto.
Qed.

Lemma failures_cons r rs : failures (r :: rs) = failures [r] + failures rs.
Proof.
  unfold failures. simpl.
  destruct (String.eqb _ "processing_error"); reflexivity.
Qed.

Lemma rows_turned (l : list nat) : forall self job,
  jobs self !! job_id = Some job ->
  exists us self' job' rs errs,
    for_each (process_row w ai_model job_id df cc lc results) l self
    = (Ret us, self')
    /\ jobs self' !! job_id = Some job'
    /\ (forall other, other <> job_id -> jobs self' !! other = jobs self !! other)
    /\ results_cache self' = results_cache self
    /\ heap self' = alter (fun old => old ++ rs) results (heap self)
    /\ Job.progress job' = (Job.progress job + Z.of_nat (length l))%Z
    /\ Job.errors job' = Job.errors job ++ errs
    /\ same_setup job job'
    /\ Forall2 aligned l rs
    /\ length errs = failures rs.
Proof.
  induction l as [|index l IH]; intros self job Hjob.
  - exists [], self, job, [], []. simpl. unfold ret.
    split; [reflexivity|]. split; [exact Hjob|]. split; [reflexivity|].
    split; [reflexivity|]. split.
    { symmetry. apply list_alter_id. intros x. apply app_nil_r. }
    split; [lia|]. split; [symmetry; apply app_nil_r|].
    split; [repeat split|]. split; [constructor | reflexivity].
  - destruct (process_row_turned index self job Hjob)
      as (s1 & j1 & r & e1 & Hrun & Hturn & Hout).
    destruct Hturn as (Hj1 & Ho1 & Hc1 & Hh1 & Hp1 & He1 & Hs1).
    destruct (IH s1 j1 Hj1)
      as (us & s2 & j2 & rs & e2 & Hrun2 & Hj2 & Ho2 & Hc2 & Hh2 & Hp2 & He2
          & Hs2 & Hal & Hcount).
    destruct (row_outcome_aligned index r e1 Hout) as (Hal1 & Hcount1).
    exists (tt :: us), s2, j2, (r :: rs), (e1 ++ e2).
    simpl for_each. unfold bind at 1. rewrite Hrun.
    unfold bind at 1. rewrite Hrun2. unfold ret.
    split; [reflexivity|]. split; [exact Hj2|].
    split; [intros other Hother; rewrite Ho2, Ho1 by exact Hother; reflexivity|].
    split; [congruence|]. split.
    { rewrite Hh2, Hh1, list_alter_alter_eq. apply list_alter_ext; [|reflexivity].
      intros x _. simpl. rewrite <- app_assoc. reflexivity. }
    split; [rewrite Hp2, Hp1; simpl length; lia|].
    split; [rewrite He2, He1, app_assoc; reflexivity|].
    split.
    { destruct Hs1 as (?&?&?&?&?&?&?), Hs2 as (?&?&?&?&?&?&?).
      repeat split; congruence. }
    split; [constructor; assumption|].
    rewrite length_app, failures_cons. lia.
Qed.

End Rows.

Section Manager.
Context (w : World) (ai_model : string).

(** The loop of [process_job] over the first [k] rows, seen from outside. *)
Lemma process_rows_run (job_id : string) (job : Job.t) (self : App) (k : nat) :
  jobs self !! job_id = Some job ->
  exists self' job' rs errs,
    process_rows w ai_model job_id job k self = (Ret (length (heap self)), self')
    /\ jobs self' !! job_id = Some job'
    /\ (forall other, other <> job_id -> jobs self' !! other = jobs self !! other)
    /\ results_cache self' = results_cache self
    /\ heap self' = heap self ++ [rs]
    /\ Job.progress job' = (Job.progress job + Z.of_nat k)%Z
    /\ Job.errors job' = Job.errors job ++ errs
    /\ same_setup (set_status PROCESSING job) job'
    /\ Forall2 (aligned w (Job.dataframe job) (fst (Job.detected_columns job)))
         (seq 0 k) rs
    /\ length errs = failures rs.
Proof.
  intros Hjob.
  unfold process_rows. unfold bind at 1. unfold update_job at 1. unfold modify at 1.
  set (s0 := set_jobs (alter (set_status PROCESSING) job_id (jobs self)) self).
  unfold bind at 1. unfold new_list at 1.
  set (s1 := set_heap (heap s0 ++ [[]]) s0).
  assert (Hj1 : jobs s1 !! job_id = Some (set_status PROCESSING job)).
  { subst s1 s0. simpl. rewrite lookup_alter_eq, Hjob. reflexivity. }
  destruct (rows_turned w ai_model job_id (Job.dataframe job)
              (fst (Job.detected_columns job)) (snd (Job.detected_columns job))
              (length (heap s0)) (seq 0 k) s1 _ Hj1)
    as (us & s2 & j2 & rs & errs & Hrun & Hj2 & Ho2 & Hc2 & Hh2 & Hp2 & He2
        & Hs2 & Hal & Hcount).
  unfold bind at 1. rewrite Hrun. unfold ret.
  exists s2, j2, rs, errs.
  split; [reflexivity|]. split; [exact Hj2|].
  split.
  { intros other Hother. rewrite (Ho2 other Hother). subst s1 s0. simpl.
    apply lookup_alter_ne. congruence. }
  split; [exact Hc2|]. split.
  { rewrite Hh2. subst s1 s0. simpl.
    replace (length (heap self)) with (length (heap self) + 0) at 1 by lia.
    rewrite alter_app_r. reflexivity. }
  split; [rewrite Hp2, length_seq; reflexivity|].
  split; [exact He2|]. split; [exact Hs2|]. split; assumption.
Qed.

End Manager.
End BatchFacts.

(** ** A job from its creation to its artifact *)

Module JobRunFacts.
Import Py Models Env Jobs Samples KeepFacts ProgressFacts RowStatusFacts BatchFacts.

Section Manager.
Context (w : World) (ai_model : string).

Lemma output_table_fits (df : DataFrame) (rs : list SimpleDomainResponse.t) :
  length rs = nrows df ->
  exists out, CSV.output_table w df rs = Ret out /\ nrows out = nrows df.
Proof.
  intros Hlen. unfold CSV.output_table.
  destruct (RedetectFacts.assign_column_fits w "primary_domain"
              (map (fun r => CSV.domain_cell (SimpleDomainResponse.primary_domain r)) rs) df)
    as (d1 & E1 & N1 & _); [rewrite length_map; exact Hlen | simpl; tauto |].
  destruct (RedetectFacts.assign_column_fits w "confidence_score"
              (map (fun r => CFloat (SimpleDomainResponse.confidence_score r)) rs) d1)
    as (d2 & E2 & N2 & _); [rewrite length_map; lia | simpl; tauto |].
  destruct (RedetectFacts.assign_column_fits w "verification_status"
              (map (fun r => CStr (SimpleDomainResponse.verification_status r)) rs) d2)
    as (d3 & E3 & N3 & _); [rewrite length_map; lia | simpl; tauto |].
  destruct (RedetectFacts.assign_column_fits w "processing_time_ms"
              (map (fun r => CInt (SimpleDomainResponse.processing_time_ms r)) rs) d3)
    as (d4 & E4 & N4 & _); [rewrite length_map; lia | simpl; tauto |].
  rewrite E1, E2, E3, E4. exists d4. split; [reflexivity | lia].
Qed.

Lemma Forall2_length_eq {A B} (P : A -> B -> Prop) l k :
  List.Forall2 P l k -> length l = length k.
Proof. induction 1; simpl; congruence. Qed.

(** [process_job] on a job of the store, seen from outside. *)
Lemma process_job_run (job_id : string) (job : Job.t) (self : App) :
  jobs self !! job_id = Some job ->
  exists self' job' rs errs out,
    process_job w ai_model job_id self = (Ret tt, self')
    /\ jobs self' !! job_id = Some job'
    /\ (forall other, other <> job_id -> jobs self' !! other = jobs self !! other)
    /\ results_cache self' = <[job_id := to_csv w out]> (results_cache self)
    /\ heap self' = heap self ++ [rs]
    /\ CSV.output_table w (Job.dataframe job) rs = Ret out
    /\ Job.status job' = COMPLETED
    /\ Job.completed_at job' = Some (now w (length (trace self')))
    /\ Job.progress job' = (Job.progress job + Z.of_nat (nrows (Job.dataframe job)))%Z
    /\ Job.total job' = Job.total job
    /\ Job.errors job' = Job.errors job ++ errs
    /\ Forall2 (aligned w (Job.dataframe job) (fst (Job.detected_columns job)))
         (seq 0 (nrows (Job.dataframe job))) rs
    /\ length errs = failures rs.
Proof.
  intros Hjob. unfold process_job. unfold bind at 1. unfold get at 1.
  rewrite Hjob. unfold try_except. unfold bind at 1.
  destruct (process_rows_run w ai_model job_id job self (nrows (Job.dataframe job)) Hjob)
    as (s1 & j1 & rs & errs & Hrun & Hj1 & Ho1 & Hc1 & Hh1 & Hp1 & He1 & Hs1 & Hal & Hn).
  rewrite Hrun. unfold bind at 1. unfold get at 1.
  assert (Hderef : deref s1 (length (heap self)) = rs).
  { unfold deref. rewrite Hh1. rewrite lookup_app_r by lia.
    rewrite Nat.sub_diag. reflexivity. }
  rewrite Hderef.
  assert (Hlen : length rs = nrows (Job.dataframe job)).
  { rewrite <- (Forall2_length_eq _ _ _ Hal). apply length_seq. }
  destruct (output_table_fits (Job.dataframe job) rs Hlen) as (out & Hout & _).
  unfold bind at 1. unfold lift at 1. unfold CSV.prepare_output_csv. rewrite Hout.
  unfold bind, modify, update_job, get. simpl.
  destruct Hs1 as (S1 & S2 & S3 & S4 & S5 & S6 & S7).
  do 2 eexists. exists rs, errs, out. split; [reflexivity|]. simpl.
  rewrite !lookup_alter_eq, Hj1. simpl.
  split; [reflexivity|]. split.
  { intros other Hother. rewrite !lookup_alter_ne by congruence. apply Ho1. exact Hother. }
  split; [rewrite Hc1; reflexivity|]. split; [exact Hh1|]. split; [exact Hout|].
  simpl. repeat split; try assumption.
Qed.

(** X: a job that is being processed shows no artifact.  When the loop has
    handled [k] rows the job is in status processing, its progress has
    grown by [k], its snapshot has no download URL, and [get_result_csv]
    returns nothing, whatever the cache holds for the job. *)
Theorem processing_job_shows_no_artifact (job_id : string) (job : Job.t)
    (self : App) (k : nat) :
  jobs self !! job_id = Some job ->
  let self' := snd (process_rows w ai_model job_id job k self) in
  get_result_csv job_id self' = None
  /\ exists r, get_job_status w job_id self' = Some r
       /\ JobStatusResponse.status r = PROCESSING
       /\ JobStatusResponse.progress r = (Job.progress job + Z.of_nat k)%Z
       /\ JobStatusResponse.total r = Job.total job
       /\ JobStatusResponse.download_url r = None.
Proof.
  intros Hjob self'. subst self'.
  destruct (process_rows_run w ai_model job_id job self k Hjob)
    as (s1 & j1 & rs & errs & Hrun & Hj1 & _ & _ & _ & Hp1 & _ & Hs1 & _).
  rewrite Hrun. simpl snd.
  destruct Hs1 as (_ & Hst & Htot & _).
  unfold get_result_csv, get_job_status. rewrite Hj1, Hst. simpl.
  split; [reflexivity|]. eexists. split; [reflexivity|]. simpl.
  try rewrite Hst. simpl. auto.
Qed.

(** [create_job] seen from outside. *)
Lemma create_job_run (job_id : string) (df : DataFrame)
    (detected : option string * option string) (self : App) :
  exists job,
    create_job w job_id df detected self
    = (Ret job_id,
       set_jobs (<[job_id := job]> (jobs self))
         (set_heap (heap self ++ [[]]) self))
    /\ Job.status job = PENDING /\ Job.progress job = 0%Z
    /\ Job.total job = Z.of_nat (nrows df) /\ Job.completed_at job = None
    /\ Job.dataframe job = df /\ Job.detected_columns job = detected
    /\ Job.results job = length (heap self) /\ Job.errors job = [].
Proof. eexists. split; [reflexivity|]. simpl. repeat split. Qed.

(** X: a job that is created and then processed.  The task returns, the
    job is completed with a completion time, its progress and its total are
    the number of rows of the table, and its artifact can be fetched: the
    snapshot has the download URL and [get_result_csv] returns the CSV. *)
Theorem created_job_completes (job_id : string) (df : DataFrame)
    (detected : option string * option string) (self : App) :
  let created := snd (create_job w job_id df detected self) in
  let finished := snd (process_job w ai_model job_id created) in
  fst (process_job w ai_model job_id created) = Ret tt
  /\ exists r csv,
       get_job_status w job_id finished = Some r
       /\ JobStatusResponse.status r = COMPLETED
       /\ JobStatusResponse.progress r = Z.of_nat (nrows df)
       /\ JobStatusResponse.total r = Z.of_nat (nrows df)
       /\ JobStatusResponse.completed_at r <> None
       /\ JobStatusResponse.download_url r = Some ("/download/" +:+ job_id)
       /\ get_result_csv job_id finished = Some csv.
Proof.
  cbv zeta.
  destruct (create_job_run job_id df detected self)
    as (job & Hc & _ & Hp & Ht & _ & Hd & _).
  rewrite Hc. simpl snd.
  set (created := set_jobs _ _).
  assert (Hjob : jobs created !! job_id = Some job).
  { subst created. simpl. apply lookup_insert_eq. }
  destruct (process_job_run job_id job created Hjob)
    as (s2 & j2 & rs & errs & out & Hrun & Hj2 & _ & Hcache & _ & _ & Hst & Hat
        & Hpr & Htot & _).
  rewrite Hrun. simpl. split; [reflexivity|].
  unfold get_job_status, get_result_csv. rewrite Hj2, Hst, Hat, Hcache. simpl.
  eexists. exists (to_csv w out). split; [reflexivity|]. simpl.
  try rewrite Hst. rewrite Hpr, Hp, Htot, Ht, Hd. simpl.
  repeat split; try reflexivity; try lia; try discriminate.
  apply lookup_insert_eq.
Qed.

(** X: the results behind the artifact are in the order of the rows.  When
    [process_job] has run on a job of the store, the CSV in the cache is
    made from the table of the job and one result for each of its rows, in
    order; the result of a row whose company cell is empty or blank is the
    placeholder with status "empty_input", and every result has one of the
    eight row statuses. *)
Theorem artifact_rows_are_aligned (job_id : string) (job : Job.t) (self : App) :
  jobs self !! job_id = Some job ->
  let df := Job.dataframe job in
  let self' := snd (process_job w ai_model job_id self) in
  exists rs out,
    CSV.output_table w df rs = Ret out
    /\ results_cache self' !! job_id = Some (to_csv w out)
    /\ length rs = nrows df
    /\ (forall i r, rs !! i = Some r ->
          In (SimpleDomainResponse.verification_status r) row_statuses
          /\ (blank_cell w df (fst (Job.detected_columns job)) i = true ->
              r = placeholder "empty_input")).
Proof.
  intros Hjob df self'. subst df self'.
  destruct (process_job_run job_id job self Hjob)
    as (s2 & j2 & rs & errs & out & Hrun & _ & _ & Hcache & _ & Hout & _ & _ & _
        & _ & _ & Hal & _).
  rewrite Hrun. simpl snd. exists rs, out.
  split; [exact Hout|]. split; [rewrite Hcache; apply lookup_insert_eq|].
  split; [rewrite <- (Forall2_length_eq _ _ _ Hal); apply length_seq|].
  intros i r Hr.
  assert (Hi : i < nrows (Job.dataframe job)).
  { apply lookup_lt_Some in Hr.
    rewrite <- (Forall2_length_eq _ _ _ Hal), length_seq in Hr. exact Hr. }
  assert (Hs : seq 0 (nrows (Job.dataframe job)) !! i = Some i).
  { rewrite lookup_seq_lt by exact Hi. reflexivity. }
  destruct (Forall2_lookup_lr _ _ _ _ _ _ Hal Hs Hr) as [Hblank Hin].
  split; [exact Hin | exact Hblank].
Qed.

(** X: one message for each failed row.  [process_job] adds to the errors
    of the job as many messages as there are results with status
    "processing_error" in the list it has built, and no other. *)
Theorem one_error_per_failed_row (job_id : string) (job : Job.t) (self : App) :
  jobs self !! job_id = Some job ->
  let self' := snd (process_job w ai_model job_id self) in
  exists job' rs,
    jobs self' !! job_id = Some job'
    /\ heap self' = heap self ++ [rs]
    /\ length (Job.errors job') = length (Job.errors job) + failures rs.
Proof.
  intros Hjob self'. subst self'.
  destruct (process_job_run job_id job self Hjob)
    as (s2 & j2 & rs & errs & out & Hrun & Hj2 & _ & _ & Hh & _ & _ & _ & _
        & _ & He & _ & Hn).
  rewrite Hrun. simpl snd. exists j2, rs.
  split; [exact Hj2|]. split; [exact Hh|].
  rewrite He, length_app, Hn. reflexivity.
Qed.

(** X: [process_job] keeps to its job.  For an identifier that the store
    does not know it does nothing; in any case the other jobs and the cache
    entries of the other jobs are as they were. *)
Theorem process_job_keeps_to_its_job (job_id : string) (self : App) :
  let self' := snd (process_job w ai_model job_id self) in
  (jobs self !! job_id = None -> process_job w ai_model job_id self = (Ret tt, self))
  /\ (forall other, other <> job_id ->
        jobs self' !! other = jobs self !! other
        /\ results_cache self' !! other = results_cache self !! other).
Proof.
  cbv zeta. destruct (jobs self !! job_id) as [job|] eqn:Hjob.
  - split; [discriminate|]. intros other Hother.
    destruct (process_job_run job_id job self Hjob)
      as (s2 & j2 & rs & errs & out & Hrun & _ & Ho & Hcache & _).
    rewrite Hrun. simpl snd. split; [apply Ho; exact Hother|].
    rewrite Hcache. apply lookup_insert_ne. congruence.
  - assert (Hrun : process_job w ai_model job_id self = (Ret tt, self)).
    { unfold process_job, bind, get. rewrite Hjob. reflexivity. }
    split; [intros _; exact Hrun|]. intros other _. rewrite Hrun. auto.
Qed.

(** X: a job that has just been created.  Its snapshot shows status
    pending, progress 0, the number of rows as total, no completion time,
    no download URL and no error; no artifact can be fetched; and the other
    jobs are as they were. *)
Theorem created_job_is_pending (job_id : string) (df : DataFrame)
    (detected : option string * option string) (self : App) :
  let created := snd (create_job w job_id df detected self) in
  fst (create_job w job_id df detected self) = Ret job_id
  /\ get_job_status w job_id created
     = Some {| JobStatusResponse.job_id := job_id;
               JobStatusResponse.status := PENDING;
               JobStatusResponse.progress := 0%Z;
               JobStatusResponse.total := Z.of_nat (nrows df);
               JobStatusResponse.completed_at := None;
               JobStatusResponse.download_url := None;
               JobStatusResponse.errors := [] |}
  /\ get_result_csv job_id created = None
  /\ snapshot job_id created = Some (0%Z, Z.of_nat (nrows df), [])
  /\ (forall other, other <> job_id ->
        get_job_status w other created = get_job_status w other self
        /\ get_result_csv other created = get_result_csv other self).
Proof.
  cbv zeta. unfold create_job, bind, new_list, get, modify, ret. simpl.
  unfold get_job_status, get_result_csv, snapshot, deref. simpl.
  rewrite !lookup_insert_eq. simpl.
  rewrite lookup_app_r by lia. rewrite Nat.sub_diag. simpl.
  repeat split; try reflexivity.
  - rewrite lookup_insert_ne by congruence. reflexivity.
  - rewrite lookup_insert_ne by congruence. reflexivity.
Qed.

End Manager.

Lemma processing_job_shows_no_artifact_witness :
  get_result_csv "job-1" (during leading_blank 1) = None.
Proof.
  unfold during.
  destruct (jobs (submitted leading_blank) !! "job-1") as [job|] eqn:E.
  - apply (processing_job_shows_no_artifact offline
             "moonshotai/kimi-k2" "job-1" job (submitted leading_blank) 1 E).
  - vm_compute in E. discriminate.
Defined.

Lemma artifact_rows_are_aligned_witness :
  exists rs out,
    CSV.output_table offline leading_blank rs = Ret out
    /\ results_cache (finished leading_blank) !! "job-1" = Some (to_csv offline out)
    /\ length rs = 2
    /\ (forall i r, rs !! i = Some r ->
          In (SimpleDomainResponse.verification_status r) row_statuses
          /\ (blank_cell offline leading_blank (Some "company") i = true ->
              r = placeholder "empty_input")).
Proof.
  destruct (jobs (submitted leading_blank) !! "job-1") as [job|] eqn:E;
    [|vm_compute in E; discriminate].
  assert (Hdf : Job.dataframe job = leading_blank /\
                fst (Job.detected_columns job) = Some "company").
  { vm_compute in E. injection E as <-. split; reflexivity. }
  destruct Hdf as [Hdf Hcc].
  pose proof (artifact_rows_are_aligned offline "moonshotai/kimi-k2" "job-1" job
                (submitted leading_blank) E) as H.
  cbv zeta in H. rewrite Hdf, Hcc in H. exact H.
Defined.

Lemma one_error_per_failed_row_witness :
  exists job' rs,
    jobs (finished leading_blank) !! "job-1" = Some job'
    /\ heap (finished leading_blank) = heap (submitted leading_blank) ++ [rs]
    /\ length (Job.errors job') = failures rs.
Proof.
  destruct (jobs (submitted leading_blank) !! "job-1") as [job|] eqn:E;
    [|vm_compute in E; discriminate].
  assert (He : Job.errors job = []).
  { vm_compute in E. injection E as <-. reflexivity. }
  destruct (one_error_per_failed_row offline "moonshotai/kimi-k2" "job-1" job
              (submitted leading_blank) E) as (job' & rs & H1 & H2 & H3).
  exists job', rs. rewrite He in H3. auto.
Defined.

End JobRunFacts.

(** ** Detection, validation and the rows of a table *)

Module DetectFacts.
Import Py Models Env CSV Samples.

Lemma matches_in pattern names col :
  In col (matches pattern names) ->
  In col names /\ PyStr.contains pattern (PyStr.lower col) = true.
Proof. unfold matches. intros H. apply filter_In in H. exact H. Qed.

Lemma first_pattern_match_in patterns names col :
  first_pattern_match patterns names = Some col ->
  exists pattern, In pattern patterns /\ In col names
                  /\ PyStr.contains pattern (PyStr.lower col) = true.
Proof.
  induction patterns as [|p rest IH]; simpl; [discriminate|].
  destruct (matches p names) as [|c cs] eqn:E.
  - intros H. destruct (IH H) as (q & Hq & Hc). exists q. tauto.
  - intros [= <-]. exists p. split; [tauto|].
    apply matches_in. rewrite E. left. reflexivity.
Qed.

Lemma first_pattern_match_none patterns names pattern :
  first_pattern_match patterns names = None -> In pattern patterns ->
  matches pattern names = [].
Proof.
  induction patterns as [|p rest IH]; simpl; [tauto|].
  destruct (matches p names) as [|c cs] eqn:E; [|discriminate].
  intros H [<- | Hin]; [exact E | apply IH; assumption].
Qed.

Lemma lower_empty s : PyStr.lower s = "" -> s = "".
Proof. destruct s; [reflexivity | discriminate]. Qed.

(** A column found by a keyword has a name, as every keyword has a letter. *)
Lemma keyword_match_is_truthy patterns names :
  forallb (fun p => negb (PyStr.contains p "")) patterns = true ->
  first_pattern_match patterns names <> None ->
  opt_truthy (first_pattern_match patterns names) = true.
Proof.
  intros Hpat Hsome.
  destruct (first_pattern_match patterns names) as [col|] eqn:E; [|congruence].
  destruct (first_pattern_match_in _ _ _ E) as (p & Hp & _ & Hc).
  rewrite forallb_forall in Hpat. specialize (Hpat p Hp).
  simpl. destruct col as [|c col]; [|reflexivity].
  change (PyStr.lower "") with "" in Hc. rewrite Hc in Hpat. discriminate.
Qed.

Lemma first_text_column_in cols col :
  first_text_column cols = Some col -> In col (map col_name cols).
Proof.
  induction cols as [|c rest IH]; simpl; [discriminate|].
  destruct (is_object (col_dtype c) && negb (all_na c)).
  - intros [= <-]. left. reflexivity.
  - intros H. right. apply IH. exact H.
Qed.

Lemma find_column_some name cols :
  In name (map col_name cols) -> exists c, find_column name cols = Some c.
Proof.
  induction cols as [|c rest IH]; simpl; [tauto|].
  destruct (String.eqb (col_name c) name) eqn:E; [eauto|].
  intros [H | H]; [|apply IH; exact H].
  apply String.eqb_neq in E. congruence.
Qed.

(** The branch that would answer "combined_location" is never taken. *)
Lemma detected_location_is_match (df : DataFrame) :
  snd (detect_columns df)
  = first_pattern_match location_patterns (column_names df).
Proof.
  unfold detect_columns. cbv zeta. cbn [snd].
  pose proof (keyword_match_is_truthy location_patterns (column_names df)
                eq_refl) as Ht.
  pose proof (first_pattern_match_none location_patterns (column_names df)
                "city") as Hn.
  revert Ht Hn.
  destruct (first_pattern_match location_patterns (column_names df)) as [col|];
    intros Ht Hn.
  - rewrite Ht by congruence. reflexivity.
  - simpl opt_truthy. cbv iota. unfold city_cols.
    rewrite Hn; [reflexivity | reflexivity | simpl; tauto].
Qed.

Lemma detected_company_in (df : DataFrame) col :
  fst (detect_columns df) = Some col -> In col (column_names df).
Proof.
  unfold detect_columns. cbv zeta. cbn [fst].
  destruct (opt_truthy (first_pattern_match company_name_patterns (column_names df))).
  - intros H. destruct (first_pattern_match_in _ _ _ H) as (_ & _ & Hin & _).
    exact Hin.
  - destruct (first_text_column (columns df)) as [c|] eqn:E.
    + intros [= <-]. apply first_text_column_in. exact E.
    + intros H. destruct (first_pattern_match_in _ _ _ H) as (_ & _ & Hin & _).
      exact Hin.
Qed.

Lemma detected_location_in (df : DataFrame) col :
  snd (detect_columns df) = Some col -> In col (column_names df).
Proof.
  rewrite detected_location_is_match. intros H.
  destruct (first_pattern_match_in _ _ _ H) as (_ & _ & Hin & _). exact Hin.
Qed.

(** What [detect_columns] names is in the table.  The company-name column
    and the location column it returns are columns of the table; the
    location is the first keyword match and nothing else, as the branch
    that would answer "combined_location" needs a column with "city" in
    its name, which the keyword "city" has matched before. *)
Theorem detected_columns_are_columns (df : DataFrame) :
  (forall col, fst (detect_columns df) = Some col -> In col (column_names df))
  /\ (forall col, snd (detect_columns df) = Some col -> In col (column_names df))
  /\ snd (detect_columns df)
     = first_pattern_match location_patterns (column_names df).
Proof.
  split; [|split].
  - intros col. apply detected_company_in.
  - intros col. apply detected_location_in.
  - apply detected_location_is_match.
Qed.

Lemma row_get_some df i col :
  In col (column_names df) -> exists v, row_get df i (Some col) = Ret v.
Proof.
  intros Hin. unfold row_get.
  destruct (find_column_some col (columns df) Hin) as [c ->]. eauto.
Qed.

Lemma state_cols_in names col : In col (state_cols names) -> In col names.
Proof. unfold state_cols. intros H. apply filter_In in H. tauto. Qed.

(** What is detected can be read.  For every row, the cell of the detected
    company-name column is there, and the location string of the detected
    location column is made without a [KeyError]. *)
Theorem detected_columns_can_be_read (w : World) (df : DataFrame) (i : nat) :
  (forall col, fst (detect_columns df) = Some col ->
     exists v, row_get df i (Some col) = Ret v)
  /\ (forall col, snd (detect_columns df) = Some col ->
        exists location, prepare_location_string w df i col = Ret location).
Proof.
  split.
  - intros col H. apply row_get_some. apply detected_company_in. exact H.
  - intros col H. apply detected_location_in in H. unfold prepare_location_string.
    destruct (String.eqb col "combined_location").
    + assert (Hcity : exists part,
                match city_cols (column_names df) with
                | [] => Ret []
                | c :: _ =>
                    match row_get df i (Some c) with
                    | Ret v => Ret (if isna v then []
                                    else [PyStr.strip (cell_str w v)])
                    | Raise e => Raise e
                    end
                end = Ret part).
      { destruct (city_cols (column_names df)) as [|c cs] eqn:E; [eauto|].
        destruct (row_get_some df i c) as [v ->]; [|eauto].
        apply (matches_in "city"). unfold city_cols in E. rewrite E. left.
        reflexivity. }
      destruct Hcity as [part1 ->].
      assert (Hstate : exists part,
                match state_cols (column_names df) with
                | [] => Ret []
                | c :: _ =>
                    match row_get df i (Some c) with
                    | Ret v => Ret (if isna v then []
                                    else [PyStr.strip (cell_str w v)])
                    | Raise e => Raise e
                    end
                end = Ret part).
      { destruct (state_cols (column_names df)) as [|c cs] eqn:E; [eauto|].
        destruct (row_get_some df i c) as [v ->]; [|eauto].
        apply state_cols_in. rewrite E. left. reflexivity. }
      destruct Hstate as [part2 ->]. eauto.
    + destruct (PyStr.truthy col); [|eauto].
      destruct (row_get_some df i col H) as [v ->]. eauto.
Qed.

End DetectFacts.
